(** * PlayBookLite: the narrative-consistency scoring pipeline

  A shallow embedding of [playbook_lite/story_types.py],
  [playbook_lite/archetypal_patterns.py],
  [playbook_lite/narrative_ontology.py] and
  [playbook_lite/timeline_validator.py], followed by the properties
  of the timeline validator and of the resonance calculator.

  Conventions of the embedding:
  - a Python [float] is an exact rational ([Q]); equalities between
    scores are therefore stated up to [Qeq] and rounding is not
    modelled;
  - a [dict] is a [gmap], a [set] a [gset]; every loop over them only
    accumulates sums, so the iteration order is immaterial;
  - code that can raise lives in the [Result] monad, and a method
    that also assigns attributes in a state-and-exception monad;
  - calls to the logger are not modelled. *)

From Stdlib Require Import QArith Qabs Lqa Lia Ascii String.
From stdpp Require Import gmap strings list fin_maps.
From Stdlib Require Import Sorted.

Open Scope Q_scope.
Open Scope string_scope.

(** ** The fragment of Python the sources rely on *)
Module Py.

(** Exceptions that the modelled code can raise. *)
Inductive Exception : Type :=
| ZeroDivisionError
| IndexError
| TypeError (msg : string)
| AttributeError (msg : string).

(** [str(e)] *)
Definition str (e : Exception) : string :=
  match e with
  | ZeroDivisionError => "division by zero"
  | IndexError => "list index out of range"
  | TypeError msg => msg
  | AttributeError msg => msg
  end.

Inductive Result (A : Type) : Type :=
| Return (a : A)
| Raise (e : Exception).
Arguments Return {A} a.
Arguments Raise {A} e.

#[global] Instance Result_ret : MRet Result := @Return.
#[global] Instance Result_bind : MBind Result := λ A B f m,
  match m with
  | Return a => f a
  | Raise e => Raise e
  end.

(** [try: body / except Exception as e: handler(e)] around pure code. *)
Definition try_except {A} (body : Result A) (handler : Exception → A) : A :=
  match body with
  | Return a => a
  | Raise e => handler e
  end.

(** [for x in xs: acc = body(acc, x)] *)
Fixpoint for_each {A S} (xs : list A) (body : S → A → Result S) (acc : S)
  : Result S :=
  match xs with
  | [] => Return acc
  | x :: xs' => acc' ← body acc x; for_each xs' body acc'
  end.

(** *** Numbers *)

Definition Qltb (x y : Q) : bool := negb (Qle_bool y x).

(** [len(xs)] used as a number. *)
Definition len {A} (xs : list A) : Q := inject_Z (Z.of_nat (length xs)).

(** True division [a / b]. *)
Definition div (a b : Q) : Result Q :=
  if Qeq_bool b 0 then Raise ZeroDivisionError else Return (a / b).

(** [sum(xs)] *)
Definition sum (xs : list Q) : Q := foldr Qplus 0 xs.

(** Two-argument [min] and [max]: the first argument wins ties. *)
Definition min (a b : Q) : Q := if Qltb b a then b else a.
Definition max (a b : Q) : Q := if Qltb a b then b else a.

(** Three-argument [max] on integers, as in [max(len(a), len(b), 1)]. *)
Definition max3 (a b c : nat) : nat := Nat.max (Nat.max a b) c.

(** *** Strings *)

Definition lower_ascii (c : ascii) : ascii :=
  let n := nat_of_ascii c in
  if (Nat.leb 65 n && Nat.leb n 90)%bool then ascii_of_nat (n + 32) else c.

(** [s.lower()], on ASCII text. *)
Fixpoint lower (s : string) : string :=
  match s with
  | EmptyString => EmptyString
  | String c s' => String (lower_ascii c) (lower s')
  end.

(** [sub in s] on strings: substring test. *)
Fixpoint contains (sub s : string) : bool :=
  (String.prefix sub s ||
   match s with
   | EmptyString => false
   | String _ s' => contains sub s'
   end)%bool.

Definition is_space (c : ascii) : bool :=
  let n := nat_of_ascii c in
  ((Nat.leb 9 n && Nat.leb n 13) || (Nat.leb 28 n && Nat.leb n 32))%bool.

(** [s.split()]: split on runs of whitespace, dropping empty words.
    [cur] holds the characters of the word being read, last first. *)
Fixpoint split_aux (s : string) (cur : list ascii) : list string :=
  let flush := match cur with
               | [] => []
               | _ => [string_of_list_ascii (rev cur)]
               end in
  match s with
  | EmptyString => flush
  | String c s' =>
      if is_space c then flush ++ split_aux s' []
      else split_aux s' (c :: cur)
  end.
Definition split (s : string) : list string := split_aux s [].

(** *** Dictionaries and sets *)

(** [d.get(k, default)] *)
Definition get {V} (d : gmap string V) (k : string) (default : V) : V :=
  match d !! k with
  | Some v => v
  | None => default
  end.

(** [k in d] *)
Definition has_key {V} (d : gmap string V) (k : string) : bool :=
  match d !! k with
  | Some _ => true
  | None => false
  end.

Definition items {V} (d : gmap string V) : list (string * V) := map_to_list d.
Definition keys {V} (d : gmap string V) : list string := (map_to_list d).*1.
Definition values {V} (d : gmap string V) : list V := (map_to_list d).*2.

(** [x in xs] on a list of strings. *)
Definition mem (x : string) (xs : list string) : bool := bool_decide (x ∈ xs).

(** [xs[i]] *)
Definition index {A} (xs : list A) (i : nat) : Result A :=
  match xs !! i with
  | Some x => Return x
  | None => Raise IndexError
  end.

(** The keyword check of a dataclass-generated [__init__]: the first
    keyword that is not a declared field is a [TypeError]. *)
Definition check_keywords (cls : string) (fields kwargs : list string)
  : Result unit :=
  match filter (λ k, k ∉ fields) kwargs with
  | k :: _ =>
      Raise (TypeError (cls ++ ".__init__() got an unexpected keyword argument '"
                            ++ k ++ "'"))
  | [] => Return ()
  end.

End Py.

(** ** [story_types.py] *)

Module CharacterAction.
(** A specific character action that impacts the story. *)
Record t : Type := mk {
  character_id : string;
  action_text : string;
  impact_level : Q;
  thematic_elements : gmap string Q;
  consequences : list string;
  is_canonical : bool
}.
End CharacterAction.

Module StoryState.
(** The current state of the narrative. *)
Record t : Type := mk {
  current_node_id : string;
  canonical_drift : Q;
  active_themes : gmap string Q;
  character_states : gmap string (gmap string Q);
  available_actions : list CharacterAction.t;
  story_id : string;
  save_slot : Z;
  save_time : string;
  version : string
}.
End StoryState.

Module TimelineNode.
(** A single point in the story timeline. *)
Record t : Type := mk {
  id : string;
  title : string;
  description : string;
  date : string;
  characters_present : list string;
  next_nodes : list string;
  requirements : gmap string Q;
  tension_level : Q;
  thematic_elements : gmap string Q;
  is_branch_point : bool;
  branch_consequences : gmap string string;
  character_actions : gmap string (list CharacterAction.t);
  time_of_day : string;
  duration : option Z
}.

(** [node.location]: the dataclass declares no such field. *)
Definition location (node : t) : Py.Result string :=
  Py.Raise (Py.AttributeError "'TimelineNode' object has no attribute 'location'").

(** [action for actions in node.character_actions.values() for action in actions] *)
Definition all_actions (node : t) : list CharacterAction.t :=
  concat (Py.values (character_actions node)).
End TimelineNode.

(** ** [archetypal_patterns.py] *)

Module ArchetypalPattern.
(** A fundamental narrative pattern. *)
Record t : Type := mk {
  name : string;
  core_themes : gset string;
  character_roles : gmap string string;
  symbolic_elements : gmap string Q;
  narrative_tensions : list (string * string)
}.
End ArchetypalPattern.

Module NarrativeExcavator.
Import ArchetypalPattern.

Record t : Type := mk {
  archetypal_patterns : gmap string ArchetypalPattern.t;
  active_patterns : gmap string Q;
  symbolic_depth : gmap string (list Q);
  thematic_layers : list (gmap string Q)
}.

Definition hero_journey : ArchetypalPattern.t :=
  {| name := "The Hero's Journey";
     core_themes := {[ "transformation"; "return"; "sacrifice" ]};
     character_roles :=
       {[ "mentor" := "guide"; "shadow" := "challenger";
          "threshold_guardian" := "gatekeeper" ]};
     symbolic_elements :=
       {[ "crossing_threshold" := 0.8; "descent" := 0.7; "rebirth" := 0.9 ]};
     narrative_tensions :=
       [("ordinary", "extraordinary"); ("fear", "courage"); ("death", "rebirth")] |}.

Definition tragic_fall : ArchetypalPattern.t :=
  {| name := "Tragic Fall";
     core_themes := {[ "hubris"; "nemesis"; "recognition" ]};
     character_roles :=
       {[ "tragic_hero" := "protagonist"; "nemesis" := "antagonist";
          "chorus" := "witness" ]};
     symbolic_elements :=
       {[ "fatal_flaw" := 0.9; "prophecy" := 0.7; "recognition" := 0.8 ]};
     narrative_tensions :=
       [("pride", "fall"); ("destiny", "free_will"); ("knowledge", "ignorance")] |}.

Definition rebirth : ArchetypalPattern.t :=
  {| name := "Rebirth";
     core_themes := {[ "redemption"; "forgiveness"; "renewal" ]};
     character_roles :=
       {[ "fallen_hero" := "protagonist"; "catalyst" := "guide";
          "witness" := "observer" ]};
     symbolic_elements :=
       {[ "darkness" := 0.8; "light" := 0.8; "water" := 0.7; "spring" := 0.6 ]};
     narrative_tensions :=
       [("sin", "redemption"); ("isolation", "connection"); ("past", "future")] |}.

Definition quest : ArchetypalPattern.t :=
  {| name := "The Quest";
     core_themes := {[ "seeking"; "discovery"; "trial" ]};
     character_roles :=
       {[ "seeker" := "protagonist"; "helper" := "ally";
          "adversary" := "challenger" ]};
     symbolic_elements :=
       {[ "journey" := 0.9; "artifact" := 0.8; "obstacle" := 0.7 ]};
     narrative_tensions :=
       [("ignorance", "wisdom"); ("weakness", "strength"); ("doubt", "faith")] |}.

(** [NarrativeExcavator()] *)
Definition init : t :=
  {| archetypal_patterns :=
       {[ "hero_journey" := hero_journey; "tragic_fall" := tragic_fall;
          "rebirth" := rebirth; "quest" := quest ]};
     active_patterns := ∅;
     symbolic_depth := ∅;
     thematic_layers := [] |}.

(** The symbol occurs in the node's description or in one of its
    actions' texts, case-insensitively. *)
Definition symbol_occurs (symbol : string) (node : TimelineNode.t) : bool :=
  (Py.contains (Py.lower symbol) (Py.lower (TimelineNode.description node))
   || existsb (λ action, Py.contains (Py.lower symbol)
                           (Py.lower (CharacterAction.action_text action)))
              (TimelineNode.all_actions node))%bool.

(** Both forces occur in the description, or both name themes of the
    node stronger than 0.3. *)
Definition tension_occurs (a b : string) (node : TimelineNode.t) : bool :=
  let desc := Py.lower (TimelineNode.description node) in
  ((Py.contains (Py.lower a) desc && Py.contains (Py.lower b) desc)
   || (Py.Qltb 0.3 (Py.get (TimelineNode.thematic_elements node) a 0)
       && Py.Qltb 0.3 (Py.get (TimelineNode.thematic_elements node) b 0)))%bool.

Definition _calculate_thematic_resonance_body
    (core_themes : gset string) (nodes : list TimelineNode.t) : Py.Result Q :=
  if bool_decide (nodes = []) then Py.Return 0
  else
    total_resonance ←
      Py.for_each (elements core_themes)
        (λ total_resonance theme,
           theme_presence ←
             Py.div (Py.sum (map (λ node,
                                    Py.get (TimelineNode.thematic_elements node) theme 0)
                                 nodes))
                    (Py.len nodes);
           Py.Return (total_resonance + theme_presence))
        0;
    if bool_decide (elements core_themes = []) then Py.Return 0
    else Py.div total_resonance (Py.len (elements core_themes)).

Definition _calculate_thematic_resonance
    (core_themes : gset string) (nodes : list TimelineNode.t) : Q :=
  Py.try_except (_calculate_thematic_resonance_body core_themes nodes) (λ _, 0).

Definition _calculate_symbolic_resonance_body
    (symbols : gmap string Q) (nodes : list TimelineNode.t) : Py.Result Q :=
  if (bool_decide (nodes = []) || bool_decide (Py.items symbols = []))%bool
  then Py.Return 0
  else
    total_resonance ←
      Py.for_each (Py.items symbols)
        (λ total_resonance '(symbol, base_strength),
           symbol_presence ←
             Py.div (Py.len (filter (λ node, symbol_occurs symbol node = true) nodes))
                    (Py.len nodes);
           Py.Return (total_resonance + symbol_presence * base_strength))
        0;
    if bool_decide (Py.items symbols = []) then Py.Return 0
    else Py.div total_resonance (Py.len (Py.items symbols)).

Definition _calculate_symbolic_resonance
    (symbols : gmap string Q) (nodes : list TimelineNode.t) : Q :=
  Py.try_except (_calculate_symbolic_resonance_body symbols nodes) (λ _, 0).

Definition _calculate_tension_resonance_body
    (tensions : list (string * string)) (nodes : list TimelineNode.t) : Py.Result Q :=
  if (bool_decide (nodes = []) || bool_decide (tensions = []))%bool
  then Py.Return 0
  else
    total_resonance ←
      Py.for_each tensions
        (λ total_resonance '(opposing_force_a, opposing_force_b),
           tension_presence ←
             Py.div (Py.len (filter (λ node,
                                       tension_occurs opposing_force_a opposing_force_b node
                                       = true) nodes))
                    (Py.len nodes);
           Py.Return (total_resonance + tension_presence))
        0;
    if bool_decide (tensions = []) then Py.Return 0
    else Py.div total_resonance (Py.len tensions).

Definition _calculate_tension_resonance
    (tensions : list (string * string)) (nodes : list TimelineNode.t) : Q :=
  Py.try_except (_calculate_tension_resonance_body tensions nodes) (λ _, 0).

Definition _measure_pattern_resonance
    (pattern : ArchetypalPattern.t) (nodes : list TimelineNode.t) : Q :=
  let theme_resonance := _calculate_thematic_resonance (core_themes pattern) nodes in
  let symbol_resonance := _calculate_symbolic_resonance (symbolic_elements pattern) nodes in
  let tension_resonance := _calculate_tension_resonance (narrative_tensions pattern) nodes in
  theme_resonance * 0.4 + symbol_resonance * 0.3 + tension_resonance * 0.3.

(** Patterns of the library whose resonance exceeds 0.4. *)
Definition excavate_patterns (self : t) (timeline_nodes : list TimelineNode.t)
  : gmap string Q :=
  list_to_map
    (omap (λ '(pattern_id, pattern),
             let resonance := _measure_pattern_resonance pattern timeline_nodes in
             if Py.Qltb 0.4 resonance then Some (pattern_id, resonance) else None)
          (Py.items (archetypal_patterns self))).

(** A word belongs to the symbol vocabulary of some pattern. *)
Definition known_symbol (self : t) (word : string) : bool :=
  existsb (λ pattern, Py.has_key (symbolic_elements pattern) word)
          (Py.values (archetypal_patterns self)).

Definition _extract_symbols (self : t) (node : TimelineNode.t) : gset string :=
  let keep := List.filter (known_symbol self) in
  let from_description := keep (Py.split (Py.lower (TimelineNode.description node))) in
  let from_actions :=
    concat (map (λ action, keep (Py.split (Py.lower (CharacterAction.action_text action))))
                (TimelineNode.all_actions node)) in
  let from_themes := keep (map Py.lower (Py.keys (TimelineNode.thematic_elements node))) in
  list_to_set (from_description ++ from_actions ++ from_themes).

(** The symbol is mentioned by the action's text. *)
Definition mentions (symbol : string) (action : CharacterAction.t) : bool :=
  Py.contains (Py.lower symbol) (Py.lower (CharacterAction.action_text action)).

(** The value of [depth] just before the final [min]. *)
Definition symbol_depth_terms (symbol : string) (node : TimelineNode.t) : Q :=
  let depth := 0 in
  let depth :=
    if Py.contains (Py.lower symbol) (Py.lower (TimelineNode.description node))
    then depth + 0.3 else depth in
  let depth :=
    foldl (λ depth action, if mentions symbol action then depth + 0.2 else depth)
          depth (TimelineNode.all_actions node) in
  let depth :=
    foldl (λ depth '(theme, strength),
             if Py.contains (Py.lower symbol) (Py.lower theme)
             then depth + strength * 0.3 else depth)
          depth (Py.items (TimelineNode.thematic_elements node)) in
  let tension_integration :=
    foldl (λ tension_integration action,
             if mentions symbol action
             then tension_integration + CharacterAction.impact_level action * 0.2
             else tension_integration)
          0 (TimelineNode.all_actions node) in
  depth + tension_integration.

Definition _calculate_symbol_depth (symbol : string) (node : TimelineNode.t) : Q :=
  Py.min (symbol_depth_terms symbol node) 1.

(** [depths[symbol].append(depth)], creating the list when absent. *)
Definition record_depth (depths : gmap string (list Q)) (symbol : string) (depth : Q)
  : gmap string (list Q) :=
  <[symbol := (Py.get depths symbol [] ++ [depth])%list]> depths.

(** Returns the depths and the excavator, whose [symbolic_depth] is
    assigned only when there is at least one node. *)
Definition analyze_narrative_depth (self : t) (nodes : list TimelineNode.t)
  : gmap string (list Q) * t :=
  if bool_decide (nodes = []) then (∅, self)
  else
    let depths :=
      foldl (λ depths node,
               foldl (λ depths symbol,
                        record_depth depths symbol (_calculate_symbol_depth symbol node))
                     depths (elements (_extract_symbols self node)))
            ∅ nodes in
    (depths, {| archetypal_patterns := archetypal_patterns self;
                active_patterns := active_patterns self;
                symbolic_depth := depths;
                thematic_layers := thematic_layers self |}).

Definition get_narrative_layers (self : t) : list (gmap string Q) :=
  thematic_layers self.

End NarrativeExcavator.

(** ** [narrative_ontology.py] *)

Module FryeMythos.
(** Northrop Frye's four mythoi. *)
Inductive t : Type := COMEDY | ROMANCE | TRAGEDY | IRONY.
End FryeMythos.

Module FryeanPattern.
Record t : Type := mk {
  mythos : FryeMythos.t;
  phase : Z;
  character_types : gset string;
  plot_movements : list string;
  symbols : gset string;
  thematic_elements : gset string;
  typical_conflicts : list (string * string);
  resonance : Q
}.

(** The copy built for an active pattern, with its measured resonance. *)
Definition with_resonance (pattern : t) (r : Q) : t :=
  {| mythos := mythos pattern; phase := phase pattern;
     character_types := character_types pattern;
     plot_movements := plot_movements pattern;
     symbols := symbols pattern;
     thematic_elements := thematic_elements pattern;
     typical_conflicts := typical_conflicts pattern;
     resonance := r |}.
End FryeanPattern.

Module CanonicalMapping.
(** The fields the dataclass declares, in order. *)
Definition fields : list string :=
  ["source_text_id"; "canonical_elements"; "thematic_fidelity";
   "structural_resonance"; "divergent_elements"; "frye_patterns";
   "melville_resonance"].
End CanonicalMapping.

Module Mapping.
(** The attributes that the analysis passes to the constructor of the
    mapping and later assigns on it. *)
Record t : Type := mk {
  base_text_id : string;
  variant_id : string;
  element_mappings : gmap string (gmap string Q);
  structural_similarities : gmap string Q;
  archetypal_shifts : gmap string Q;
  canonical_fidelity : option Q;
  frye_patterns : list FryeanPattern.t
}.
End Mapping.

Module NarrativeElement.
(** Fundamental unit in the narrative ontology. *)
Record t : Type := mk {
  id : string;
  type : string;
  name : string;
  attributes : gmap string Q;
  relationships : gmap string Q;
  archetypal_resonance : gmap string Q;
  variations : list (gmap string Q);
  canonical_source : option string;
  melville_markers : gmap string Q;
  frye_categorization : option FryeMythos.t
}.

Definition with_canonical_source (element : t) (text_id : string) : t :=
  {| id := id element; type := type element; name := name element;
     attributes := attributes element; relationships := relationships element;
     archetypal_resonance := archetypal_resonance element;
     variations := variations element;
     canonical_source := Some text_id;
     melville_markers := melville_markers element;
     frye_categorization := frye_categorization element |}.
End NarrativeElement.

Module MelvilleWork.
(** One entry of [melville_works]. *)
Record t : Type := mk {
  themes : gset string;
  symbols : gset string;
  character_types : gset string;
  frye_mythos : FryeMythos.t
}.
End MelvilleWork.

Module NarrativeOntologyBuilder.

Record t : Type := mk {
  elements : gmap string NarrativeElement.t;
  mappings : gmap string Mapping.t;
  excavator : NarrativeExcavator.t;
  canonical_patterns : gmap string (gmap string Q);
  variant_patterns : gmap string Q;
  frye_patterns : list (FryeMythos.t * list FryeanPattern.t);
  melville_works : gmap string MelvilleWork.t
}.

Definition _initialize_frye_patterns : list (FryeMythos.t * list FryeanPattern.t) :=
  [ (FryeMythos.COMEDY,
     [ FryeanPattern.mk FryeMythos.COMEDY 1
         {[ "young lover"; "blocking figure"; "helper" ]}
         ["obstacles to union"; "recognition"; "festive conclusion"]
         {[ "spring"; "garden"; "festival"; "marriage" ]}
         {[ "renewal"; "reconciliation"; "harmony" ]}
         [("youth", "age"); ("freedom", "society")] 0 ]);
    (FryeMythos.ROMANCE,
     [ FryeanPattern.mk FryeMythos.ROMANCE 1
         {[ "hero"; "companion"; "antagonist" ]}
         ["quest"; "journey"; "triumph"]
         {[ "sword"; "holy grail"; "magical weapon" ]}
         {[ "adventure"; "idealism"; "victory" ]}
         [("good", "evil"); ("order", "chaos")] 0 ]);
    (FryeMythos.TRAGEDY,
     [ FryeanPattern.mk FryeMythos.TRAGEDY 1
         {[ "tragic hero"; "nemesis"; "chorus" ]}
         ["hubris"; "fall"; "recognition"]
         {[ "autumn"; "sunset"; "storm" ]}
         {[ "fate"; "pride"; "justice" ]}
         [("individual", "fate"); ("ambition", "limitation")] 0 ]);
    (FryeMythos.IRONY,
     [ FryeanPattern.mk FryeMythos.IRONY 1
         {[ "anti-hero"; "victim"; "society" ]}
         ["alienation"; "absurdity"; "cyclic return"]
         {[ "winter"; "darkness"; "maze" ]}
         {[ "disillusionment"; "absurdity"; "limitation" ]}
         [("illusion", "reality"); ("individual", "society")] 0 ]) ].

(** [NarrativeOntologyBuilder()] *)
Definition init : t :=
  {| elements := ∅;
     mappings := ∅;
     excavator := NarrativeExcavator.init;
     canonical_patterns := ∅;
     variant_patterns := ∅;
     frye_patterns := _initialize_frye_patterns;
     melville_works :=
       {[ "moby_dick" :=
            MelvilleWork.mk {[ "obsession"; "isolation"; "nature"; "faith"; "revenge" ]}
                            {[ "whale"; "sea"; "whiteness"; "ship" ]}
                            {[ "monomaniac"; "isolato"; "prophet" ]}
                            FryeMythos.TRAGEDY;
          "billy_budd" :=
            MelvilleWork.mk {[ "innocence"; "authority"; "duty"; "moral_ambiguity" ]}
                            {[ "handsome_sailor"; "mutiny"; "law"; "hanging" ]}
                            {[ "innocent"; "authority_figure"; "tragic_witness" ]}
                            FryeMythos.TRAGEDY;
          "bartleby" :=
            MelvilleWork.mk {[ "resistance"; "alienation"; "capitalism"; "humanity" ]}
                            {[ "wall"; "office"; "dead_letters"; "preference" ]}
                            {[ "passive_resister"; "corporate_figure"; "observer" ]}
                            FryeMythos.IRONY ]} |}.

(** How many strings of the set satisfy the test. *)
Definition count_in (xs : gset string) (test : string → bool) : Q :=
  Py.len (List.filter test (stdpp.base.elements xs)).

(** Some action of the node mentions the character type. *)
Definition type_in_actions (node : TimelineNode.t) (char_type : string) : bool :=
  existsb (NarrativeExcavator.mentions char_type) (TimelineNode.all_actions node).

Definition symbol_in_description (node : TimelineNode.t) (symbol : string) : bool :=
  Py.contains (Py.lower symbol) (Py.lower (TimelineNode.description node)).

Definition theme_in_node (node : TimelineNode.t) (theme : string) : bool :=
  Py.has_key (TimelineNode.thematic_elements node) theme.

(** [num / len(xs) if xs else 0] *)
Definition fraction_or_zero (num : Q) (xs : gset string) : Py.Result Q :=
  if bool_decide (stdpp.base.elements xs = []) then Py.Return 0
  else Py.div num (Py.len (stdpp.base.elements xs)).

Definition _calculate_pattern_resonance_body
    (pattern : FryeanPattern.t) (nodes : list TimelineNode.t) : Py.Result Q :=
  resonance_scores ←
    Py.for_each nodes
      (λ resonance_scores node,
         character_score ←
           fraction_or_zero
             (count_in (FryeanPattern.character_types pattern) (type_in_actions node))
             (FryeanPattern.character_types pattern);
         symbol_score ←
           fraction_or_zero
             (count_in (FryeanPattern.symbols pattern) (symbol_in_description node))
             (FryeanPattern.symbols pattern);
         theme_score ←
           fraction_or_zero
             (count_in (FryeanPattern.thematic_elements pattern) (theme_in_node node))
             (FryeanPattern.thematic_elements pattern);
         let node_resonance :=
           character_score * 0.4 + symbol_score * 0.3 + theme_score * 0.3 in
         Py.Return (resonance_scores ++ [node_resonance])%list)
      [];
  if bool_decide (resonance_scores = []) then Py.Return 0
  else Py.div (Py.sum resonance_scores) (Py.len resonance_scores).

Definition _calculate_pattern_resonance
    (pattern : FryeanPattern.t) (nodes : list TimelineNode.t) : Q :=
  Py.try_except (_calculate_pattern_resonance_body pattern nodes) (λ _, 0).

(** Stable insertion by decreasing resonance, for
    [sort(key=lambda x: x.resonance, reverse=True)]. *)
Fixpoint insert_by_resonance (x : FryeanPattern.t) (xs : list FryeanPattern.t)
  : list FryeanPattern.t :=
  match xs with
  | [] => [x]
  | y :: ys =>
      if Py.Qltb (FryeanPattern.resonance x) (FryeanPattern.resonance y)
      then y :: insert_by_resonance x ys
      else x :: y :: ys
  end.

Definition sort_by_resonance (xs : list FryeanPattern.t) : list FryeanPattern.t :=
  foldr insert_by_resonance [] xs.

Definition _analyze_frye_patterns (self : t) (nodes : list TimelineNode.t)
  : list FryeanPattern.t :=
  let active_patterns :=
    omap (λ pattern,
            let resonance := _calculate_pattern_resonance pattern nodes in
            if Py.Qltb 0.3 resonance
            then Some (FryeanPattern.with_resonance pattern resonance)
            else None)
         (concat (map snd (frye_patterns self))) in
  sort_by_resonance active_patterns.

Definition _analyze_melville_resonance_body (self : t) (nodes : list TimelineNode.t)
  : Py.Result Q :=
  total_resonance ←
    Py.for_each nodes
      (λ total_resonance node,
         Py.for_each (Py.values (melville_works self))
           (λ total_resonance patterns,
              let theme_matches := count_in (MelvilleWork.themes patterns) (theme_in_node node) in
              let symbol_matches :=
                count_in (MelvilleWork.symbols patterns) (symbol_in_description node) in
              let char_type_matches :=
                count_in (MelvilleWork.character_types patterns) (type_in_actions node) in
              work_resonance ←
                Py.div (theme_matches * 0.4 + symbol_matches * 0.3 + char_type_matches * 0.3)
                       (Py.len (stdpp.base.elements (MelvilleWork.themes patterns))
                        + Py.len (stdpp.base.elements (MelvilleWork.symbols patterns))
                        + Py.len (stdpp.base.elements (MelvilleWork.character_types patterns)));
              Py.Return (total_resonance + work_resonance))
           total_resonance)
      0;
  average ← Py.div total_resonance (Py.len (Py.items (melville_works self)));
  Py.Return (Py.min average 1).

Definition _analyze_melville_resonance (self : t) (nodes : list TimelineNode.t) : Q :=
  Py.try_except (_analyze_melville_resonance_body self nodes) (λ _, 0).

(** [max(xs)] of a non-empty list, the earliest maximum winning. *)
Definition max_of (x : Q) (xs : list Q) : Q := foldl Py.max x xs.

Definition best_similarity (similarities : gmap string Q) : Q :=
  match Py.values similarities with
  | [] => 0
  | x :: xs => max_of x xs
  end.

Definition _calculate_canonical_fidelity
    (element_mappings : gmap string (gmap string Q))
    (archetypal_shifts : gmap string Q) (melville_resonance : Q) : Q :=
  let element_fidelity :=
    Py.sum (map best_similarity (Py.values element_mappings))
    / inject_Z (Z.of_nat (Nat.max (length (Py.items element_mappings)) 1)) in
  let pattern_fidelity :=
    1 - Py.sum (map Qabs (Py.values archetypal_shifts))
        / inject_Z (Z.of_nat (Nat.max (length (Py.items archetypal_shifts)) 1)) in
  element_fidelity * 0.5 + pattern_fidelity * 0.2 + melville_resonance * 0.3.

(** [NarrativeElement(id=.., type=.., name=.., attributes=.., relationships={},
    archetypal_resonance={}, variations=[])] *)
Definition new_element (id type name : string) (attributes : gmap string Q)
  : NarrativeElement.t :=
  NarrativeElement.mk id type name attributes ∅ ∅ [] None ∅ None.

(** [if key not in elements: elements[key] = element] *)
Definition add_if_absent (elements : gmap string NarrativeElement.t)
    (element : NarrativeElement.t) : gmap string NarrativeElement.t :=
  if Py.has_key elements (NarrativeElement.id element) then elements
  else <[NarrativeElement.id element := element]> elements.

Definition _extract_narrative_elements (nodes : list TimelineNode.t)
  : Py.Result (gmap string NarrativeElement.t) :=
  Py.for_each nodes
    (λ elements node,
       let elements :=
         foldl (λ elements char_id,
                  add_if_absent elements (new_element char_id "character" char_id ∅))
               elements (TimelineNode.characters_present node) in
       location ← TimelineNode.location node;
       let elements :=
         add_if_absent elements (new_element ("location_" ++ location) "location" location ∅) in
       Py.Return
         (foldl (λ elements '(theme, strength),
                   add_if_absent elements
                     (new_element ("theme_" ++ theme) "theme" theme {[ "strength" := strength ]}))
                elements (Py.items (TimelineNode.thematic_elements node))))
    ∅.

(** [sum(min(a.get(k, 0), b.get(k, 0)) for k in set(a) & set(b))
     / max(len(a), len(b), 1)] *)
Definition overlap (a b : gmap string Q) : Q :=
  Py.sum (map (λ k, Py.min (Py.get a k 0) (Py.get b k 0))
              (List.filter (Py.has_key b) (Py.keys a)))
  / inject_Z (Z.of_nat (Py.max3 (length (Py.items a)) (length (Py.items b)) 1)).

Definition _calculate_similarity_score (element_a element_b : NarrativeElement.t) : Q :=
  let attribute_similarity :=
    overlap (NarrativeElement.attributes element_a) (NarrativeElement.attributes element_b) in
  let relationship_similarity :=
    overlap (NarrativeElement.relationships element_a)
            (NarrativeElement.relationships element_b) in
  let resonance_similarity :=
    overlap (NarrativeElement.archetypal_resonance element_a)
            (NarrativeElement.archetypal_resonance element_b) in
  attribute_similarity * 0.3 + relationship_similarity * 0.4 + resonance_similarity * 0.3.

Definition _calculate_element_similarities (self : t) (element : NarrativeElement.t)
  : gmap string Q :=
  list_to_map
    (omap (λ '(base_id, base_element),
             if bool_decide (NarrativeElement.type base_element = NarrativeElement.type element)
             then
               let similarity := _calculate_similarity_score element base_element in
               if Py.Qltb 0.3 similarity then Some (base_id, similarity) else None
             else None)
          (Py.items (elements self))).

Definition _compare_character_networks
    (variant_elements : gmap string NarrativeElement.t) : Q := 0.5.
Definition _compare_thematic_structures
    (variant_elements : gmap string NarrativeElement.t) : Q := 0.5.
Definition _compare_narrative_progressions
    (variant_elements : gmap string NarrativeElement.t) : Q := 0.5.

Definition _calculate_structural_similarities
    (variant_elements : gmap string NarrativeElement.t) (canonical_id : string)
  : gmap string Q :=
  {[ "character_network" := _compare_character_networks variant_elements;
     "thematic_structure" := _compare_thematic_structures variant_elements;
     "narrative_progression" := _compare_narrative_progressions variant_elements ]}.

(** The mapping is built with [CanonicalMapping(base_text_id=..,
    variant_id=.., element_mappings={}, structural_similarities={},
    archetypal_shifts={})]. *)
Definition _create_ontological_mapping (self : t) (canonical_id variant_id : string)
    (variant_elements : gmap string NarrativeElement.t) : Py.Result Mapping.t :=
  _ ← Py.check_keywords "CanonicalMapping" CanonicalMapping.fields
        ["base_text_id"; "variant_id"; "element_mappings"; "structural_similarities";
         "archetypal_shifts"];
  let element_mappings := _calculate_element_similarities self <$> variant_elements in
  Py.Return
    {| Mapping.base_text_id := canonical_id;
       Mapping.variant_id := variant_id;
       Mapping.element_mappings := element_mappings;
       Mapping.structural_similarities :=
         _calculate_structural_similarities variant_elements canonical_id;
       Mapping.archetypal_shifts := ∅;
       Mapping.canonical_fidelity := None;
       Mapping.frye_patterns := [] |}.

Definition _calculate_archetypal_shifts (self : t) (canonical_id : string)
    (variant_patterns : gmap string Q) : gmap string Q :=
  let canonical_patterns := Py.get (canonical_patterns self) canonical_id ∅ in
  list_to_map
    (map (λ pattern_id,
            (pattern_id,
             Py.get variant_patterns pattern_id 0 - Py.get canonical_patterns pattern_id 0))
         (stdpp.base.elements (dom canonical_patterns ∪ dom variant_patterns))).

Definition set_mappings (self : t) (mappings : gmap string Mapping.t) : t :=
  {| elements := elements self; mappings := mappings; excavator := excavator self;
     canonical_patterns := canonical_patterns self;
     variant_patterns := variant_patterns self;
     frye_patterns := frye_patterns self; melville_works := melville_works self |}.

(** The default of the [canonical_id] parameter. *)
Definition default_canonical_id : string := "moby_dick_original".

(** Returns the mapping, or the exception that is logged and raised
    again, together with the builder. *)
Definition analyze_variant (self : t) (variant_nodes : list TimelineNode.t)
    (variant_id canonical_id : string) : Py.Result Mapping.t * t :=
  let body :=
    elements ← _extract_narrative_elements variant_nodes;
    let frye_analysis := _analyze_frye_patterns self variant_nodes in
    mapping ← _create_ontological_mapping self canonical_id variant_id elements;
    let melville_resonance := _analyze_melville_resonance self variant_nodes in
    let archetypal_shifts :=
      _calculate_archetypal_shifts self canonical_id
        (NarrativeExcavator.excavate_patterns (excavator self) variant_nodes) in
    let canonical_fidelity :=
      _calculate_canonical_fidelity (Mapping.element_mappings mapping)
        archetypal_shifts melville_resonance in
    Py.Return
      {| Mapping.base_text_id := Mapping.base_text_id mapping;
         Mapping.variant_id := Mapping.variant_id mapping;
         Mapping.element_mappings := Mapping.element_mappings mapping;
         Mapping.structural_similarities := Mapping.structural_similarities mapping;
         Mapping.archetypal_shifts := archetypal_shifts;
         Mapping.canonical_fidelity := Some canonical_fidelity;
         Mapping.frye_patterns := frye_analysis |} in
  match body with
  | Py.Return mapping =>
      (Py.Return mapping, set_mappings self (<[variant_id := mapping]> (mappings self)))
  | Py.Raise e => (Py.Raise e, self)
  end.

(** Returns the exception that is logged and raised again, if any, and
    the builder: the reference patterns are stored before the elements
    are extracted. *)
Definition register_canonical_text (self : t) (text_id : string)
    (nodes : list TimelineNode.t) : Py.Result unit * t :=
  let with_patterns (elements : gmap string NarrativeElement.t) : t :=
    {| elements := elements;
       mappings := mappings self; excavator := excavator self;
       canonical_patterns :=
         <[text_id := NarrativeExcavator.excavate_patterns (excavator self) nodes]>
           (canonical_patterns self);
       variant_patterns := variant_patterns self;
       frye_patterns := frye_patterns self; melville_works := melville_works self |} in
  match _extract_narrative_elements nodes with
  | Py.Return canonical_elements =>
      (Py.Return (),
       with_patterns
         (((λ element, NarrativeElement.with_canonical_source element text_id)
             <$> canonical_elements) ∪ elements self))
  | Py.Raise e => (Py.Raise e, with_patterns (elements self))
  end.

End NarrativeOntologyBuilder.

(** ** [timeline_validator.py] *)

Module TimelineConsistencyValidator.

Record t : Type := mk {
  canonical_nodes : gset string;
  character_actions : gmap string (list CharacterAction.t);
  excavator : NarrativeExcavator.t;
  ontology_builder : NarrativeOntologyBuilder.t;
  thematic_weights : gmap string Q;
  active_patterns : gmap string Q;
  narrative_depth : gmap string (list Q);
  current_variant_id : option string
}.

(** [TimelineConsistencyValidator()] *)
Definition init : t :=
  {| canonical_nodes := ∅;
     character_actions := ∅;
     excavator := NarrativeExcavator.init;
     ontology_builder := NarrativeOntologyBuilder.init;
     thematic_weights :=
       {[ "revenge" := 0.8; "obsession" := 0.9; "isolation" := 0.7;
          "friendship" := 0.6; "fate" := 0.8; "nature" := 0.7 ]};
     active_patterns := ∅;
     narrative_depth := ∅;
     current_variant_id := None |}.

(** *** The objects a call can reach, and the monad of method bodies *)

(** The validator and the [StoryState] object passed by the caller
    ([None] when the caller passes [None]). *)
Record World : Type := mkWorld {
  self : t;
  current_state : option StoryState.t
}.

Definition M (A : Type) : Type := World → Py.Result A * World.

#[global] Instance M_ret : MRet M := λ A a w, (Py.Return a, w).
#[global] Instance M_bind : MBind M := λ A B f m w,
  match m w with
  | (Py.Return a, w') => f a w'
  | (Py.Raise e, w') => (Py.Raise e, w')
  end.

Definition get_self : M t := λ w, (Py.Return (self w), w).
Definition put_self (v : t) : M unit :=
  λ w, (Py.Return (), {| self := v; current_state := current_state w |}).

(** [current_state is None] *)
Definition state_is_None : M bool :=
  λ w, (Py.Return (bool_decide (current_state w = None)), w).

(** [current_state.<attr>]; reading an attribute of [None] raises. *)
Definition state_attr {A} (attr : string) (read : StoryState.t → A) : M A :=
  λ w, match current_state w with
       | Some st => (Py.Return (read st), w)
       | None =>
           (Py.Raise (Py.AttributeError
                        ("'NoneType' object has no attribute '" ++ attr ++ "'")), w)
       end.

Definition lift {A} (r : Py.Result A) : M A := λ w, (r, w).

(** [try: body / except Exception as e: return handler(e)]; assignments
    made before the exception was raised persist. *)
Definition try_except {A} (body : M A) (handler : Py.Exception → A) : World → A * World :=
  λ w, match body w with
       | (Py.Return a, w') => (a, w')
       | (Py.Raise e, w') => (handler e, w')
       end.

(** [self.active_patterns = v] *)
Definition set_active_patterns (v : gmap string Q) : M unit :=
  me ← get_self;
  put_self {| canonical_nodes := canonical_nodes me;
              character_actions := character_actions me;
              excavator := excavator me;
              ontology_builder := ontology_builder me;
              thematic_weights := thematic_weights me;
              active_patterns := v;
              narrative_depth := narrative_depth me;
              current_variant_id := current_variant_id me |}.

(** [self.narrative_depth = v] *)
Definition set_narrative_depth (v : gmap string (list Q)) : M unit :=
  me ← get_self;
  put_self {| canonical_nodes := canonical_nodes me;
              character_actions := character_actions me;
              excavator := excavator me;
              ontology_builder := ontology_builder me;
              thematic_weights := thematic_weights me;
              active_patterns := active_patterns me;
              narrative_depth := v;
              current_variant_id := current_variant_id me |}.

Definition set_excavator (v : NarrativeExcavator.t) : M unit :=
  me ← get_self;
  put_self {| canonical_nodes := canonical_nodes me;
              character_actions := character_actions me;
              excavator := v;
              ontology_builder := ontology_builder me;
              thematic_weights := thematic_weights me;
              active_patterns := active_patterns me;
              narrative_depth := narrative_depth me;
              current_variant_id := current_variant_id me |}.

Definition set_ontology_builder (v : NarrativeOntologyBuilder.t) : M unit :=
  me ← get_self;
  put_self {| canonical_nodes := canonical_nodes me;
              character_actions := character_actions me;
              excavator := excavator me;
              ontology_builder := v;
              thematic_weights := thematic_weights me;
              active_patterns := active_patterns me;
              narrative_depth := narrative_depth me;
              current_variant_id := current_variant_id me |}.

(** [self.excavator.excavate_patterns(nodes)] *)
Definition excavate_patterns (nodes : list TimelineNode.t) : M (gmap string Q) :=
  me ← get_self;
  mret (NarrativeExcavator.excavate_patterns (excavator me) nodes).

(** [self.excavator.analyze_narrative_depth(nodes)] *)
Definition analyze_narrative_depth (nodes : list TimelineNode.t)
  : M (gmap string (list Q)) :=
  me ← get_self;
  let '(depths, excavator') :=
    NarrativeExcavator.analyze_narrative_depth (excavator me) nodes in
  _ ← set_excavator excavator';
  mret depths.

(** [self.ontology_builder.analyze_variant(variant_nodes=nodes, variant_id=variant_id)] *)
Definition analyze_variant (nodes : list TimelineNode.t) (variant_id : string)
  : M Mapping.t :=
  me ← get_self;
  let '(result, builder') :=
    NarrativeOntologyBuilder.analyze_variant (ontology_builder me) nodes variant_id
      NarrativeOntologyBuilder.default_canonical_id in
  _ ← set_ontology_builder builder';
  lift result.

(** [set_variant_id] *)
Definition set_variant_id (me : t) (variant_id : string) : t :=
  {| canonical_nodes := canonical_nodes me;
     character_actions := character_actions me;
     excavator := excavator me;
     ontology_builder := ontology_builder me;
     thematic_weights := thematic_weights me;
     active_patterns := active_patterns me;
     narrative_depth := narrative_depth me;
     current_variant_id := Some variant_id |}.

(** Placeholder of the source: the generator yields nothing. *)
Definition _get_all_nodes (me : t) : list TimelineNode.t := [].

(** Stub of the source. *)
Definition _is_near_ending (me : t) (node : TimelineNode.t) : bool := false.

(** [register_canonical_action] *)
Definition register_canonical_action (me : t) (character_id : string)
    (action : CharacterAction.t) : t :=
  {| canonical_nodes := canonical_nodes me;
     character_actions :=
       <[character_id := (Py.get (character_actions me) character_id [] ++ [action])%list]>
         (character_actions me);
     excavator := excavator me;
     ontology_builder := ontology_builder me;
     thematic_weights := thematic_weights me;
     active_patterns := active_patterns me;
     narrative_depth := narrative_depth me;
     current_variant_id := current_variant_id me |}.

(** Both branches of the source return [True] for an action and a
    state that are present. *)
Definition _is_action_valid (action : CharacterAction.t) (state : StoryState.t) : bool :=
  if (CharacterAction.is_canonical action
      && Py.Qltb (StoryState.canonical_drift state) 0.5)%bool
  then true else true.

Definition get_available_actions (me : t) (character_id : string)
    (story_state : option StoryState.t) : list CharacterAction.t :=
  match story_state with
  | None => []
  | Some state =>
      if Py.has_key (character_actions me) character_id
      then List.filter (λ action, _is_action_valid action state)
                       (Py.get (character_actions me) character_id [])
      else []
  end.

(** [self.excavator.archetypal_patterns.get(pattern_id)] for the items
    of a pattern-resonance dictionary; unknown ids give [None]. *)
Definition lookup_pattern (me : t) (pattern_id : string) : option ArchetypalPattern.t :=
  NarrativeExcavator.archetypal_patterns (excavator me) !! pattern_id.

Definition _calculate_thematic_drift (me : t) (current_themes next_themes : gmap string Q)
    (active_patterns : gmap string Q) : Q :=
  let all_themes : gset string :=
    foldl (λ all_themes '(pattern_id, resonance),
             match lookup_pattern me pattern_id with
             | Some pattern => all_themes ∪ ArchetypalPattern.core_themes pattern
             | None => all_themes
             end)
          (dom current_themes ∪ dom next_themes) (Py.items active_patterns) in
  let '(total_drift, total_weight) :=
    foldl (λ '(total_drift, total_weight) theme,
             let weight := Py.get (thematic_weights me) theme 0.5 in
             let weight :=
               foldl (λ weight '(pattern_id, resonance),
                        match lookup_pattern me pattern_id with
                        | Some pattern =>
                            if bool_decide (theme ∈ ArchetypalPattern.core_themes pattern)
                            then weight * (1 + resonance) else weight
                        | None => weight
                        end)
                     weight (Py.items active_patterns) in
             let current_value := Py.get current_themes theme 0 in
             let next_value := Py.get next_themes theme 0 in
             let drift := Qabs (current_value - next_value) * weight in
             (total_drift + drift, total_weight + weight))
          (0, 0) (elements all_themes) in
  if Py.Qltb 0 total_weight then total_drift / total_weight else 0.

Definition _update_canonical_drift (current_drift : Q) (is_canonical_node : bool)
    (thematic_drift pattern_consistency : Q) : Q :=
  let drift_factor := if is_canonical_node then 0.7 else 1.3 in
  let pattern_factor := 1 - pattern_consistency in
  let new_drift :=
    current_drift * drift_factor * 0.4 + thematic_drift * 0.3 + pattern_factor * 0.3 in
  Py.min (Py.max new_drift 0) 1.

(** The score one active pattern contributes for the next node. *)
Definition consistency_score (pattern : ArchetypalPattern.t) (resonance : Q)
    (next_node : TimelineNode.t) : Py.Result Q :=
  let core_themes := elements (ArchetypalPattern.core_themes pattern) in
  let theme_match :=
    Py.len (List.filter (Py.has_key (TimelineNode.thematic_elements next_node)) core_themes) in
  theme_score ←
    (if bool_decide (core_themes = []) then Py.Return 1
     else Py.div theme_match (Py.len core_themes));
  let role_match :=
    Py.len (List.filter (Py.has_key (ArchetypalPattern.character_roles pattern))
                        (TimelineNode.characters_present next_node)) in
  role_score ←
    (if bool_decide (TimelineNode.characters_present next_node = []) then Py.Return 1
     else Py.div role_match (Py.len (TimelineNode.characters_present next_node)));
  Py.Return ((theme_score * 0.6 + role_score * 0.4) * resonance).

Definition _validate_pattern_consistency_body (me : t) (next_node : TimelineNode.t)
  : Py.Result Q :=
  if bool_decide (Py.items (active_patterns me) = []) then Py.Return 1
  else
    consistency_scores ←
      Py.for_each (Py.items (active_patterns me))
        (λ consistency_scores '(pattern_id, resonance),
           match lookup_pattern me pattern_id with
           | Some pattern =>
               score ← consistency_score pattern resonance next_node;
               Py.Return (consistency_scores ++ [score])%list
           | None => Py.Return consistency_scores
           end)
        [];
    if bool_decide (consistency_scores = []) then Py.Return 1
    else Py.div (Py.sum consistency_scores) (Py.len consistency_scores).

(** The [current_state] argument of the source is not used by the body. *)
Definition _validate_pattern_consistency (me : t) (next_node : TimelineNode.t) : Q :=
  Py.try_except (_validate_pattern_consistency_body me next_node) (λ _, 0).

(** [if not self.active_patterns: ...]: the lazy analysis of the corpus. *)
Definition analyze_corpus_if_needed : M unit :=
  me ← get_self;
  if bool_decide (Py.items (active_patterns me) = []) then
    let all_nodes := _get_all_nodes me in
    patterns ← excavate_patterns all_nodes;
    _ ← set_active_patterns patterns;
    depths ← analyze_narrative_depth all_nodes;
    _ ← set_narrative_depth depths;
    me ← get_self;
    match current_variant_id me with
    | Some variant_id =>
        if bool_decide (variant_id = "") then mret ()
        else _ ← analyze_variant all_nodes variant_id; mret ()
    | None => mret ()
    end
  else mret ().

(** First definition of the method (source lines 33 to 87), which the
    second definition of the same name replaces in the class. *)
Definition validate_story_progression_shadowed (next_node : TimelineNode.t)
  : World → (bool * Q * string) * World :=
  try_except
    (is_none ← state_is_None;
     if is_none : bool then mret (false, 1, "Invalid state: Story state not initialized")
     else
       available_actions ← state_attr "available_actions" StoryState.available_actions;
       if bool_decide (available_actions = []) then
         canonical_drift ← state_attr "canonical_drift" StoryState.canonical_drift;
         mret (true, canonical_drift, "No actions available")
       else
         available_actions ← state_attr "available_actions" StoryState.available_actions;
         first_action ← lift (Py.index available_actions 0);
         if negb (Py.mem (TimelineNode.id next_node)
                         (CharacterAction.consequences first_action)) then
           mret (false, 1, "Invalid story progression - nodes not connected")
         else
           _ ← analyze_corpus_if_needed;
           me ← get_self;
           let pattern_consistency := _validate_pattern_consistency me next_node in
           if Py.Qltb pattern_consistency 0.4 then
             mret (false, 1, "Progression breaks archetypal pattern consistency")
           else
             active_themes ← state_attr "active_themes" StoryState.active_themes;
             me ← get_self;
             let thematic_drift :=
               _calculate_thematic_drift me active_themes
                 (TimelineNode.thematic_elements next_node) (active_patterns me) in
             canonical_drift ← state_attr "canonical_drift" StoryState.canonical_drift;
             me ← get_self;
             let new_canonical_drift :=
               _update_canonical_drift canonical_drift
                 (bool_decide (TimelineNode.id next_node ∈ canonical_nodes me))
                 thematic_drift pattern_consistency in
             me ← get_self;
             if (Py.Qltb 0.8 new_canonical_drift && _is_near_ending me next_node)%bool then
               mret (false, new_canonical_drift,
                     "Story diverged too far from canonical ending")
             else mret (true, new_canonical_drift, "Valid progression"))
    (λ e, (false, 1, "Validation error: " ++ Py.str e)).

(** Second definition of the method (source lines 100 to 154): the one
    the class ends up with. *)
Definition validate_story_progression (next_node : TimelineNode.t)
  : World → (bool * Q * string) * World :=
  try_except
    (is_none ← state_is_None;
     if is_none : bool then mret (false, 1, "Invalid state: Story state not initialized")
     else
       available_actions ← state_attr "available_actions" StoryState.available_actions;
       if bool_decide (available_actions = []) then
         canonical_drift ← state_attr "canonical_drift" StoryState.canonical_drift;
         mret (true, canonical_drift, "No actions available")
       else
         available_actions ← state_attr "available_actions" StoryState.available_actions;
         first_action ← lift (Py.index available_actions 0);
         if negb (Py.mem (TimelineNode.id next_node)
                         (CharacterAction.consequences first_action)) then
           mret (false, 1, "Invalid story progression - nodes not connected")
         else
           _ ← analyze_corpus_if_needed;
           me ← get_self;
           let pattern_consistency := _validate_pattern_consistency me next_node in
           if Py.Qltb pattern_consistency 0.4 then
             mret (false, 1, "Progression breaks archetypal pattern consistency")
           else
             active_themes ← state_attr "active_themes" StoryState.active_themes;
             me ← get_self;
             let thematic_drift :=
               _calculate_thematic_drift me active_themes
                 (TimelineNode.thematic_elements next_node) (active_patterns me) in
             canonical_drift ← state_attr "canonical_drift" StoryState.canonical_drift;
             me ← get_self;
             let new_canonical_drift :=
               _update_canonical_drift canonical_drift
                 (bool_decide (TimelineNode.id next_node ∈ canonical_nodes me))
                 thematic_drift pattern_consistency in
             me ← get_self;
             if (Py.Qltb 0.8 new_canonical_drift && _is_near_ending me next_node)%bool then
               mret (false, new_canonical_drift,
                     "Story diverged too far from canonical ending")
             else mret (true, new_canonical_drift, "Valid progression"))
    (λ e, (false, 1, "Validation error: " ++ Py.str e)).

End TimelineConsistencyValidator.

(** ** [story_types.py]: serialization of the story state *)

Module ActionDict.
(** The dictionary of one action in the serialized state. A key that
    the code reads may be absent. *)
Record t : Type := mk {
  character_id : option string;
  action_text : option string;
  impact_level : option Q;
  thematic_elements : option (gmap string Q);
  consequences : option (list string);
  is_canonical : option bool
}.
End ActionDict.

Module StateDict.
(** The dictionaries under "metadata" and "state", and the dictionary
    that holds both. *)
Record metadata : Type := mkMetadata {
  story_id : option string;
  save_slot : option Z;
  save_time : option string;
  version : option string
}.

Record state : Type := mkState {
  current_node_id : option string;
  canonical_drift : option Q;
  active_themes : option (gmap string Q);
  character_states : option (gmap string (gmap string Q));
  available_actions : option (list ActionDict.t)
}.

Record t : Type := mk {
  metadata_entry : option metadata;
  state_entry : option state
}.

(** [{}] *)
Definition empty_metadata : metadata := mkMetadata None None None None.
Definition empty_state : state := mkState None None None None None.
Definition empty : t := mk None None.
End StateDict.

Module StoryStateIO.

(** The outcome of reading a dictionary: [d[key]] on an absent key
    raises [KeyError(key)]. *)
Inductive loaded (A : Type) : Type :=
| Loaded (a : A)
| KeyError (key : string).
Arguments Loaded {A} a.
Arguments KeyError {A} key.

(** [d[key]] *)
Definition item {A} (key : string) (entry : option A) : loaded A :=
  match entry with
  | Some a => Loaded a
  | None => KeyError key
  end.

(** [d.get(key, default)] *)
Definition get {A} (entry : option A) (default : A) : A :=
  match entry with
  | Some a => a
  | None => default
  end.

Definition action_to_dict (action : CharacterAction.t) : ActionDict.t :=
  {| ActionDict.character_id := Some (CharacterAction.character_id action);
     ActionDict.action_text := Some (CharacterAction.action_text action);
     ActionDict.impact_level := Some (CharacterAction.impact_level action);
     ActionDict.thematic_elements := Some (CharacterAction.thematic_elements action);
     ActionDict.consequences := Some (CharacterAction.consequences action);
     ActionDict.is_canonical := Some (CharacterAction.is_canonical action) |}.

(** [StoryState.to_dict] *)
Definition to_dict (self : StoryState.t) : StateDict.t :=
  {| StateDict.metadata_entry :=
       Some {| StateDict.story_id := Some (StoryState.story_id self);
               StateDict.save_slot := Some (StoryState.save_slot self);
               StateDict.save_time := Some (StoryState.save_time self);
               StateDict.version := Some (StoryState.version self) |};
     StateDict.state_entry :=
       Some {| StateDict.current_node_id := Some (StoryState.current_node_id self);
               StateDict.canonical_drift := Some (StoryState.canonical_drift self);
               StateDict.active_themes := Some (StoryState.active_themes self);
               StateDict.character_states := Some (StoryState.character_states self);
               StateDict.available_actions :=
                 Some (map action_to_dict (StoryState.available_actions self)) |} |}.

(** The [CharacterAction(...)] call of the list comprehension: the
    keyword arguments are evaluated in the order written. *)
Definition action_from_dict (action : ActionDict.t) : loaded CharacterAction.t :=
  match item "character_id" (ActionDict.character_id action) with
  | KeyError key => KeyError key
  | Loaded character_id =>
  match item "action_text" (ActionDict.action_text action) with
  | KeyError key => KeyError key
  | Loaded action_text =>
  match item "impact_level" (ActionDict.impact_level action) with
  | KeyError key => KeyError key
  | Loaded impact_level =>
  match item "thematic_elements" (ActionDict.thematic_elements action) with
  | KeyError key => KeyError key
  | Loaded thematic_elements =>
  match item "consequences" (ActionDict.consequences action) with
  | KeyError key => KeyError key
  | Loaded consequences =>
      Loaded {| CharacterAction.character_id := character_id;
                CharacterAction.action_text := action_text;
                CharacterAction.impact_level := impact_level;
                CharacterAction.thematic_elements := thematic_elements;
                CharacterAction.consequences := consequences;
                CharacterAction.is_canonical := get (ActionDict.is_canonical action) false |}
  end end end end end.

(** The list comprehension over the action dictionaries. *)
Fixpoint actions_from_dicts (actions : list ActionDict.t)
  : loaded (list CharacterAction.t) :=
  match actions with
  | [] => Loaded []
  | action :: rest =>
      match action_from_dict action with
      | KeyError key => KeyError key
      | Loaded first =>
          match actions_from_dicts rest with
          | KeyError key => KeyError key
          | Loaded others => Loaded (first :: others)
          end
      end
  end.

(** [StoryState.from_dict]; [now] is [datetime.now().isoformat()]. *)
Definition from_dict (now : string) (data : StateDict.t) : loaded StoryState.t :=
  let metadata := get (StateDict.metadata_entry data) StateDict.empty_metadata in
  let state := get (StateDict.state_entry data) StateDict.empty_state in
  match actions_from_dicts (get (StateDict.available_actions state) []) with
  | KeyError key => KeyError key
  | Loaded actions =>
      Loaded {| StoryState.current_node_id := get (StateDict.current_node_id state) "";
                StoryState.canonical_drift := get (StateDict.canonical_drift state) 0;
                StoryState.active_themes := get (StateDict.active_themes state) ∅;
                StoryState.character_states := get (StateDict.character_states state) ∅;
                StoryState.available_actions := actions;
                StoryState.story_id := get (StateDict.story_id metadata) "default_story";
                StoryState.save_slot := get (StateDict.save_slot metadata) 1%Z;
                StoryState.save_time := get (StateDict.save_time metadata) now;
                StoryState.version := get (StateDict.version metadata) "1.0" |}
  end.

End StoryStateIO.

(** ** Vocabulary of the statements *)

(** A score, strength or weight within the closed unit interval. *)
Definition unit_interval (x : Q) : Prop := 0 <= x ∧ x <= 1.

(** Every theme strength of every node lies in the unit interval. *)
Definition theme_strengths_in_range (nodes : list TimelineNode.t) : Prop :=
  Forall (λ node, map_Forall (λ _ strength, unit_interval strength)
                             (TimelineNode.thematic_elements node)) nodes.

(** Every symbol weight of the pattern lies in the unit interval. *)
Definition symbol_weights_in_range (pattern : ArchetypalPattern.t) : Prop :=
  map_Forall (λ _ weight, unit_interval weight)
             (ArchetypalPattern.symbolic_elements pattern).

(** Every action of the node has its impact level in the unit interval. *)
Definition impact_levels_in_range (node : TimelineNode.t) : Prop :=
  Forall (λ action, unit_interval (CharacterAction.impact_level action))
         (TimelineNode.all_actions node).

(** A bare node and a bare action, to be filled in by examples. *)
Definition node_of (id description : string) (characters_present : list string)
    (thematic_elements : gmap string Q)
    (character_actions : gmap string (list CharacterAction.t)) : TimelineNode.t :=
  {| TimelineNode.id := id; TimelineNode.title := ""; TimelineNode.description := description;
     TimelineNode.date := "1851-10-18";
     TimelineNode.characters_present := characters_present;
     TimelineNode.next_nodes := []; TimelineNode.requirements := ∅;
     TimelineNode.tension_level := 0;
     TimelineNode.thematic_elements := thematic_elements;
     TimelineNode.is_branch_point := false; TimelineNode.branch_consequences := ∅;
     TimelineNode.character_actions := character_actions;
     TimelineNode.time_of_day := "unknown"; TimelineNode.duration := None |}.

Definition action_of (character_id action_text : string) (impact_level : Q)
    (consequences : list string) : CharacterAction.t :=
  {| CharacterAction.character_id := character_id;
     CharacterAction.action_text := action_text;
     CharacterAction.impact_level := impact_level;
     CharacterAction.thematic_elements := ∅;
     CharacterAction.consequences := consequences;
     CharacterAction.is_canonical := false |}.

(** A node in which the symbol "descent" is in the description, in a
    theme and in three actions of full impact. *)
Definition descent_node : TimelineNode.t :=
  node_of "7" "The Descent into the maelstrom" ["ahab"]
    {[ "descent" := 0.5; "transformation" := 0.9 ]}
    {[ "ahab" := [ action_of "ahab" "Begins the descent" 1 ["8"];
                   action_of "ahab" "Continues the DESCENT" 1 ["8"] ];
       "ishmael" := [ action_of "ishmael" "Watches the descent" 1 ["8"] ] ]}.

(** The tuple returned by a call of [validate_story_progression] on a
    validator and a story state, and the validator and the story state
    after the call. *)
Definition outcome (me : TimelineConsistencyValidator.t) (state : option StoryState.t)
    (next_node : TimelineNode.t) : bool * Q * string :=
  fst (TimelineConsistencyValidator.validate_story_progression next_node
         (TimelineConsistencyValidator.mkWorld me state)).

Definition validator_after (me : TimelineConsistencyValidator.t)
    (state : option StoryState.t) (next_node : TimelineNode.t)
  : TimelineConsistencyValidator.t :=
  TimelineConsistencyValidator.self
    (snd (TimelineConsistencyValidator.validate_story_progression next_node
            (TimelineConsistencyValidator.mkWorld me state))).

Definition state_after (me : TimelineConsistencyValidator.t)
    (state : option StoryState.t) (next_node : TimelineNode.t) : option StoryState.t :=
  TimelineConsistencyValidator.current_state
    (snd (TimelineConsistencyValidator.validate_story_progression next_node
            (TimelineConsistencyValidator.mkWorld me state))).

Definition accepted (o : bool * Q * string) : bool := o.1.1.
Definition returned_drift (o : bool * Q * string) : Q := o.1.2.
Definition reason (o : bool * Q * string) : string := o.2.

(** A story state with the given drift, themes and available actions. *)
Definition state_of (current_node_id : string) (canonical_drift : Q)
    (active_themes : gmap string Q) (available_actions : list CharacterAction.t)
  : StoryState.t :=
  {| StoryState.current_node_id := current_node_id;
     StoryState.canonical_drift := canonical_drift;
     StoryState.active_themes := active_themes;
     StoryState.character_states := ∅;
     StoryState.available_actions := available_actions;
     StoryState.story_id := "default_story";
     StoryState.save_slot := 1%Z;
     StoryState.save_time := "2024-01-01T00:00:00";
     StoryState.version := "1.0" |}.

(** Ishmael signs aboard: the only available action leads to beat "2";
    the drift so far is 0.2. *)
Definition signing_action : CharacterAction.t :=
  action_of "ishmael" "Signs aboard the Pequod" 0.5 ["2"].

Definition signing_state : StoryState.t :=
  state_of "1" 0.2 {[ "obsession" := 0.5; "fate" := 0.4 ]} [signing_action].

(** The same story state once no action is available any more. *)
Definition stranded_state : StoryState.t :=
  state_of "1" 0.2 {[ "obsession" := 0.5; "fate" := 0.4 ]} [].

(** Beat "2" carries the themes of [signing_state]; beat "3" does not
    follow from [signing_action]. *)
Definition sailing_node : TimelineNode.t :=
  node_of "2" "The Pequod sails on Christmas day" ["ishmael"]
    {[ "obsession" := 0.5; "fate" := 0.4 ]} ∅.

Definition chase_node : TimelineNode.t :=
  node_of "3" "The chase" ["ishmael"] ∅ ∅.

(** A validator for which beat "2" belongs to the reference narrative. *)
Definition reference_validator : TimelineConsistencyValidator.t :=
  {| TimelineConsistencyValidator.canonical_nodes := {[ "2" ]};
     TimelineConsistencyValidator.character_actions := ∅;
     TimelineConsistencyValidator.excavator := NarrativeExcavator.init;
     TimelineConsistencyValidator.ontology_builder := NarrativeOntologyBuilder.init;
     TimelineConsistencyValidator.thematic_weights :=
       TimelineConsistencyValidator.thematic_weights TimelineConsistencyValidator.init;
     TimelineConsistencyValidator.active_patterns := ∅;
     TimelineConsistencyValidator.narrative_depth := ∅;
     TimelineConsistencyValidator.current_variant_id := None |}.

(** The same validator with the hero's journey active at resonance 0.9. *)
Definition heroic_validator : TimelineConsistencyValidator.t :=
  {| TimelineConsistencyValidator.canonical_nodes := {[ "2" ]};
     TimelineConsistencyValidator.character_actions := ∅;
     TimelineConsistencyValidator.excavator := NarrativeExcavator.init;
     TimelineConsistencyValidator.ontology_builder := NarrativeOntologyBuilder.init;
     TimelineConsistencyValidator.thematic_weights :=
       TimelineConsistencyValidator.thematic_weights TimelineConsistencyValidator.init;
     TimelineConsistencyValidator.active_patterns := {[ "hero_journey" := 0.9 ]};
     TimelineConsistencyValidator.narrative_depth := ∅;
     TimelineConsistencyValidator.current_variant_id := None |}.

Section ValidatorVocabulary.
Import TimelineConsistencyValidator.
(** The tuple returned once the corpus has been analysed without an
    exception, for the validator [me] left by the analysis. *)
Definition verdict (me : t) (state : StoryState.t) (next_node : TimelineNode.t)
  : bool * Q * string :=
  let pattern_consistency := _validate_pattern_consistency me next_node in
  if Py.Qltb pattern_consistency 0.4
  then (false, 1, "Progression breaks archetypal pattern consistency")
  else
    let new_canonical_drift :=
      _update_canonical_drift (StoryState.canonical_drift state)
        (bool_decide (TimelineNode.id next_node ∈ canonical_nodes me))
        (_calculate_thematic_drift me (StoryState.active_themes state)
           (TimelineNode.thematic_elements next_node) (active_patterns me))
        pattern_consistency in
    if (Py.Qltb 0.8 new_canonical_drift && _is_near_ending me next_node)%bool
    then (false, new_canonical_drift, "Story diverged too far from canonical ending")
    else (true, new_canonical_drift, "Valid progression").


(** [x] clamped to the unit interval. *)
Definition clamp01 (x : Q) : Q :=
  if Qlt_le_dec x 0 then 0 else if Qlt_le_dec 1 x then 1 else x.

(** The new canonical drift, in the words of the specification. *)
Definition drift_formula (current_drift : Q) (next_is_canonical : bool)
    (thematic_drift pattern_consistency : Q) : Q :=
  clamp01 (current_drift * (if next_is_canonical then 0.7 else 1.3) * 0.4
           + thematic_drift * 0.3
           + (1 - pattern_consistency) * 0.3).

(** The drift returned by the call is the one of the formula, for the
    thematic drift and the pattern consistency that the validator
    computes with the active patterns it holds after the call. *)
Definition drift_follows_formula (me : t) (state : StoryState.t)
    (next_node : TimelineNode.t) : Prop :=
  let me' := validator_after me (Some state) next_node in
  returned_drift (outcome me (Some state) next_node)
  == drift_formula (StoryState.canonical_drift state)
       (bool_decide (TimelineNode.id next_node ∈ canonical_nodes me))
       (_calculate_thematic_drift me' (StoryState.active_themes state)
          (TimelineNode.thematic_elements next_node) (active_patterns me'))
       (_validate_pattern_consistency me' next_node).

(** Fraction of the pattern's core themes that are themes of the node
    (1.0 for a pattern without core themes). *)
Definition theme_overlap (pattern : ArchetypalPattern.t) (node : TimelineNode.t) : Q :=
  let core_themes := elements (ArchetypalPattern.core_themes pattern) in
  if bool_decide (core_themes = []) then 1
  else Py.len (List.filter (Py.has_key (TimelineNode.thematic_elements node)) core_themes)
       / Py.len core_themes.

(** Fraction of the characters present in the node that have a role in
    the pattern (1.0 for a node without characters). *)
Definition role_overlap (pattern : ArchetypalPattern.t) (node : TimelineNode.t) : Q :=
  let present := TimelineNode.characters_present node in
  if bool_decide (present = []) then 1
  else Py.len (List.filter (Py.has_key (ArchetypalPattern.character_roles pattern)) present)
       / Py.len present.

Definition pattern_score (node : TimelineNode.t) (entry : ArchetypalPattern.t * Q) : Q :=
  (theme_overlap entry.1 node * 0.6 + role_overlap entry.1 node * 0.4) * entry.2.

(** The active patterns that the pattern library knows, with their
    resonance. *)
Definition known_active_patterns (me : t) : list (ArchetypalPattern.t * Q) :=
  omap (λ '(pattern_id, resonance),
          (λ pattern, (pattern, resonance)) <$> lookup_pattern me pattern_id)
       (Py.items (active_patterns me)).

(** Pattern consistency, in the words of the specification: the mean
    of the scores of the active patterns, 1.0 when there is none. *)
Definition pattern_consistency_formula (me : t) (node : TimelineNode.t) : Q :=
  match known_active_patterns me with
  | [] => 1
  | patterns => Py.sum (map (pattern_score node) patterns) / Py.len patterns
  end.
End ValidatorVocabulary.

(** The running total of a loop that adds one term of the unit interval
    per iteration. *)
Definition bounded_total (s : Q) (k : nat) : Prop :=
  0 <= s ∧ s <= inject_Z (Z.of_nat k).

(** ** Vocabulary of the further properties *)

(** The validator after an analysis of the (empty) corpus: no active
    pattern and no narrative depth. *)
Definition forget_analysis (me : TimelineConsistencyValidator.t)
  : TimelineConsistencyValidator.t :=
  {| TimelineConsistencyValidator.canonical_nodes :=
       TimelineConsistencyValidator.canonical_nodes me;
     TimelineConsistencyValidator.character_actions :=
       TimelineConsistencyValidator.character_actions me;
     TimelineConsistencyValidator.excavator := TimelineConsistencyValidator.excavator me;
     TimelineConsistencyValidator.ontology_builder :=
       TimelineConsistencyValidator.ontology_builder me;
     TimelineConsistencyValidator.thematic_weights :=
       TimelineConsistencyValidator.thematic_weights me;
     TimelineConsistencyValidator.active_patterns := ∅;
     TimelineConsistencyValidator.narrative_depth := ∅;
     TimelineConsistencyValidator.current_variant_id :=
       TimelineConsistencyValidator.current_variant_id me |}.

(** [self.current_variant_id] is a non-empty string. *)
Definition variant_is_set (me : TimelineConsistencyValidator.t) : bool :=
  match TimelineConsistencyValidator.current_variant_id me with
  | Some variant_id => negb (bool_decide (variant_id = ""))
  | None => false
  end.

(** The exception raised when the mapping of a variant is built. *)
Definition mapping_error : Py.Exception :=
  Py.TypeError "CanonicalMapping.__init__() got an unexpected keyword argument 'base_text_id'".


(** A validator with a variant id. *)
Definition variant_validator : TimelineConsistencyValidator.t :=
  TimelineConsistencyValidator.set_variant_id reference_validator "ishmael_survives".

(** The order in which the active Frye patterns are returned. *)
Definition by_decreasing_resonance (p q : FryeanPattern.t) : Prop :=
  FryeanPattern.resonance q <= FryeanPattern.resonance p.

(** A builder whose reference text has the quest as its pattern profile. *)
Definition profiled_builder : NarrativeOntologyBuilder.t :=
  {| NarrativeOntologyBuilder.elements := ∅;
     NarrativeOntologyBuilder.mappings := ∅;
     NarrativeOntologyBuilder.excavator := NarrativeExcavator.init;
     NarrativeOntologyBuilder.canonical_patterns :=
       {[ "moby_dick_original" := {[ "quest" := 0.7 ]} ]};
     NarrativeOntologyBuilder.variant_patterns := ∅;
     NarrativeOntologyBuilder.frye_patterns :=
       NarrativeOntologyBuilder._initialize_frye_patterns;
     NarrativeOntologyBuilder.melville_works := ∅ |}.


(** The action dictionary has the five keys that [from_dict] indexes. *)
Definition has_required_keys (action : ActionDict.t) : Prop :=
  is_Some (ActionDict.character_id action) ∧
  is_Some (ActionDict.action_text action) ∧
  is_Some (ActionDict.impact_level action) ∧
  is_Some (ActionDict.thematic_elements action) ∧
  is_Some (ActionDict.consequences action).

(** The action dictionaries listed by a serialized state. *)
Definition listed_actions (data : StateDict.t) : list ActionDict.t :=
  StoryStateIO.get
    (StateDict.available_actions
       (StoryStateIO.get (StateDict.state_entry data) StateDict.empty_state)) [].


(** * Properties *)

(** ** Arithmetic of the Python fragment *)

Section PyFacts.

Lemma Qltb_true (x y : Q) : Py.Qltb x y = true ↔ x < y.
Proof.
  unfold Py.Qltb. rewrite negb_true_iff. split.
  - intros H. apply Qnot_le_lt. intros Hle.
    apply Qle_bool_iff in Hle. congruence.
  - intros H. destruct (Qle_bool y x) eqn:E; [|reflexivity].
    apply Qle_bool_iff in E. lra.
Qed.

Lemma Qltb_false (x y : Q) : Py.Qltb x y = false ↔ y <= x.
Proof.
  unfold Py.Qltb. rewrite negb_false_iff. apply Qle_bool_iff.
Qed.

Lemma min_le_r (a b : Q) : Py.min a b <= b.
Proof.
  unfold Py.min. destruct (Py.Qltb b a) eqn:E; [lra|].
  apply Qltb_false in E. exact E.
Qed.

Lemma min_ge (a b c : Q) : c <= a → c <= b → c <= Py.min a b.
Proof. unfold Py.min. destruct (Py.Qltb b a); auto. Qed.

Lemma max_ge_r (a b : Q) : b <= Py.max a b.
Proof.
  unfold Py.max. destruct (Py.Qltb a b) eqn:E; [lra|].
  apply Qltb_false in E. exact E.
Qed.

Lemma len_nonneg {A} (xs : list A) : 0 <= Py.len xs.
Proof. unfold Py.len, Qle. simpl. lia. Qed.

Lemma len_pos {A} (xs : list A) : xs ≠ [] → 0 < Py.len xs.
Proof. destruct xs; [congruence|]. intros _. unfold Py.len, Qlt. simpl. lia. Qed.

Lemma len_cons {A} (x : A) (xs : list A) : Py.len (x :: xs) == 1 + Py.len xs.
Proof.
  unfold Py.len. rewrite length_cons, Nat2Z.inj_succ, <- Z.add_1_l, inject_Z_plus.
  reflexivity.
Qed.

Lemma len_app_one {A} (xs : list A) (x : A) : Py.len (xs ++ [x]) == Py.len xs + 1.
Proof.
  unfold Py.len. rewrite length_app, Nat2Z.inj_add, inject_Z_plus. reflexivity.
Qed.

Lemma len_le {A B} (xs : list A) (ys : list B) : (length xs <= length ys)%nat → Py.len xs <= Py.len ys.
Proof. intros H. unfold Py.len. rewrite <- Zle_Qle. lia. Qed.

Lemma len_filter_le {A} (P : A → Prop) `{∀ x, Decision (P x)} (xs : list A) :
  Py.len (filter P xs) <= Py.len xs.
Proof. apply len_le, length_filter. Qed.

Lemma len_List_filter_le {A} (f : A → bool) (xs : list A) :
  Py.len (List.filter f xs) <= Py.len xs.
Proof. apply len_le, List.filter_length_le. Qed.

(** A successful division, and the bounds of a ratio. *)
Lemma div_pos (a b : Q) : 0 < b → Py.div a b = Py.Return (a / b).
Proof.
  intros Hb. unfold Py.div. destruct (Qeq_bool b 0) eqn:E; [|reflexivity].
  apply Qeq_bool_iff in E. lra.
Qed.

Lemma ratio_bounds (a b : Q) : 0 < b → 0 <= a → a <= b → 0 <= a / b ∧ a / b <= 1.
Proof.
  intros Hb Ha Hab. split.
  - apply Qle_shift_div_l; lra.
  - apply Qle_shift_div_r; lra.
Qed.

Lemma sum_app_one (xs : list Q) (x : Q) : Py.sum (xs ++ [x]) == Py.sum xs + x.
Proof.
  induction xs as [|y ys IH]; simpl.
  - lra.
  - unfold Py.sum in *. simpl. rewrite IH. lra.
Qed.

Lemma sum_bounds (xs : list Q) :
  Forall (λ x, 0 <= x ∧ x <= 1) xs → 0 <= Py.sum xs ∧ Py.sum xs <= Py.len xs.
Proof.
  induction 1 as [|x xs [Hx0 Hx1] _ [IH0 IH1]].
  - split; [unfold Py.sum; simpl; lra | apply len_nonneg].
  - rewrite len_cons. unfold Py.sum in *. simpl. split; lra.
Qed.

Lemma sum_nonneg (xs : list Q) : Forall (λ x, 0 <= x) xs → 0 <= Py.sum xs.
Proof.
  induction 1 as [|x xs Hx _ IH]; unfold Py.sum in *; simpl; lra.
Qed.

(** A loop whose body cannot raise on the elements of the list and
    keeps an invariant indexed by the number of iterations. *)
Lemma for_each_invariant {A St} (P : St → nat → Prop) (xs : list A)
    (body : St → A → Py.Result St) (acc : St) (n : nat) :
  P acc n →
  (∀ s x k, x ∈ xs → P s k → ∃ s', body s x = Py.Return s' ∧ P s' (S k)) →
  ∃ r, Py.for_each xs body acc = Py.Return r ∧ P r (n + length xs)%nat.
Proof.
  revert acc n. induction xs as [|x xs IH]; intros acc n Hacc Hbody.
  - exists acc. split; [reflexivity|]. simpl. rewrite Nat.add_0_r. exact Hacc.
  - destruct (Hbody acc x n) as (s' & Hs' & HP); [left|exact Hacc|].
    destruct (IH s' (S n)) as (r & Hr & HPr); [exact HP| |].
    + intros s y k Hy. apply Hbody. right. exact Hy.
    + exists r. split.
      * simpl. rewrite Hs'. exact Hr.
      * simpl. rewrite Nat.add_succ_r. exact HPr.
Qed.

End PyFacts.

(** The string operations on small inputs. *)
Example split_on_whitespace :
  Py.split "  the  white whale " = ["the"; "white"; "whale"].
Proof. reflexivity. Qed.

Example contains_is_substring :
  Py.contains "" "abc" = true ∧ Py.contains "bc" "abc" = true
  ∧ Py.contains "cb" "abc" = false.
Proof. repeat split; reflexivity. Qed.

Example lower_is_ascii_lowercase : Py.lower "Moby-Dick Z" = "moby-dick z".
Proof. reflexivity. Qed.

(** Runs the loop in the goal under the invariant [P], leaving the
    invariant to establish at entry and to preserve at each iteration. *)
Ltac loop_invariant P r Hr :=
  match goal with
  | |- context [Py.for_each ?xs ?body ?acc] =>
      let H := fresh "Hloop" in
      destruct (for_each_invariant P xs body acc 0%nat) as (r & H & Hr);
      [ | | rewrite H; clear H ]
  end.


(** ** The resonance calculator *)

Section Resonance.
Import NarrativeExcavator.

Lemma len_succ (k : nat) : inject_Z (Z.of_nat (S k)) == inject_Z (Z.of_nat k) + 1.
Proof. rewrite Nat2Z.inj_succ, <- Z.add_1_r, inject_Z_plus. reflexivity. Qed.

Lemma get_in_range (d : gmap string Q) (k : string) :
  map_Forall (λ _ v, unit_interval v) d → unit_interval (Py.get d k 0).
Proof.
  intros Hd. unfold Py.get. destruct (d !! k) as [v|] eqn:E.
  - exact (Hd k v E).
  - split; lra.
Qed.

(** The mean of a quantity that lies in the unit interval at every node. *)
Lemma presence_in_range (nodes : list TimelineNode.t) (total : Q) :
  nodes ≠ [] → 0 <= total → total <= Py.len nodes →
  ∃ q, Py.div total (Py.len nodes) = Py.Return q ∧ unit_interval q.
Proof.
  intros Hne H0 H1. pose proof (len_pos nodes Hne) as Hpos.
  exists (total / Py.len nodes). split; [apply div_pos; exact Hpos|].
  apply ratio_bounds; assumption.
Qed.

(** The final average of a loop that added one term of the unit
    interval per element. *)
Lemma average_in_range {A} (xs : list A) (total : Q) :
  0 <= total → total <= Py.len xs →
  unit_interval
    (Py.try_except
       (if bool_decide (xs = []) then Py.Return 0 else Py.div total (Py.len xs))
       (λ _, 0)).
Proof.
  intros H0 H1. case_bool_decide as Hxs.
  - simpl. split; lra.
  - rewrite (div_pos _ _ (len_pos xs Hxs)). simpl.
    apply ratio_bounds; [apply len_pos; exact Hxs|exact H0|exact H1].
Qed.

Lemma thematic_resonance_in_range (core_themes : gset string)
    (nodes : list TimelineNode.t) :
  theme_strengths_in_range nodes →
  unit_interval (_calculate_thematic_resonance core_themes nodes).
Proof.
  intros Hnodes. unfold _calculate_thematic_resonance, _calculate_thematic_resonance_body.
  case_bool_decide as Hne; [simpl; split; lra|].
  loop_invariant bounded_total r Hr;
    [split; [lra|unfold Qle; simpl; lia]| |destruct Hr as [Hr0 Hr1]].
  - intros s theme k _ [Hs0 Hs1].
    set (strengths := map _ nodes).
    assert (Hall : Forall (λ x, 0 <= x ∧ x <= 1) strengths).
    { apply Forall_map. eapply Forall_impl; [exact Hnodes|].
      intros node Hnode. apply (get_in_range _ theme Hnode). }
    destruct (sum_bounds _ Hall) as [Hsum0 Hsum1].
    destruct (presence_in_range nodes (Py.sum strengths) Hne Hsum0) as (q & -> & Hq0 & Hq1).
    { eapply Qle_trans; [exact Hsum1|]. apply len_le. unfold strengths.
      rewrite length_map. reflexivity. }
    eexists. split; [reflexivity|]. unfold bounded_total. rewrite len_succ. split; lra.
  - simpl. apply average_in_range; [exact Hr0|exact Hr1].
Qed.

Lemma product_in_range (a b : Q) : unit_interval a → unit_interval b → unit_interval (a * b).
Proof. intros [Ha0 Ha1] [Hb0 Hb1]. split; nra. Qed.

Lemma symbolic_resonance_in_range (symbols : gmap string Q)
    (nodes : list TimelineNode.t) :
  map_Forall (λ _ weight, unit_interval weight) symbols →
  unit_interval (_calculate_symbolic_resonance symbols nodes).
Proof.
  intros Hsym. unfold _calculate_symbolic_resonance, _calculate_symbolic_resonance_body.
  destruct (bool_decide (nodes = [])) eqn:Hne; [simpl; split; lra|].
  apply bool_decide_eq_false in Hne.
  destruct (bool_decide (Py.items symbols = [])) eqn:Hitems; [simpl; split; lra|].
  cbn [orb].
  loop_invariant bounded_total r Hr;
    [split; [lra|unfold Qle; simpl; lia]| |destruct Hr as [Hr0 Hr1]].
  - intros s [symbol base_strength] k Hin [Hs0 Hs1].
    destruct (presence_in_range nodes
                (Py.len (filter (λ node, symbol_occurs symbol node = true) nodes)) Hne)
      as (q & -> & Hq); [apply len_nonneg|apply len_filter_le|].
    assert (Hbase : unit_interval base_strength).
    { apply (Hsym symbol). apply elem_of_map_to_list. exact Hin. }
    destruct (product_in_range _ _ Hq Hbase) as [Hp0 Hp1].
    eexists. split; [reflexivity|]. unfold bounded_total. rewrite len_succ. split; lra.
  - unfold mbind, Py.Result_bind. apply bool_decide_eq_false in Hitems.
    rewrite (div_pos _ _ (len_pos _ Hitems)). simpl.
    apply ratio_bounds; [apply len_pos; exact Hitems|exact Hr0|exact Hr1].
Qed.

Lemma tension_resonance_in_range (tensions : list (string * string))
    (nodes : list TimelineNode.t) :
  unit_interval (_calculate_tension_resonance tensions nodes).
Proof.
  unfold _calculate_tension_resonance, _calculate_tension_resonance_body.
  destruct (bool_decide (nodes = [])) eqn:Hne; [simpl; split; lra|].
  apply bool_decide_eq_false in Hne.
  destruct (bool_decide (tensions = [])) eqn:Hten; [simpl; split; lra|].
  cbn [orb].
  loop_invariant bounded_total r Hr;
    [split; [lra|unfold Qle; simpl; lia]| |destruct Hr as [Hr0 Hr1]].
  - intros s [a b] k Hin [Hs0 Hs1].
    destruct (presence_in_range nodes
                (Py.len (filter (λ node, tension_occurs a b node = true) nodes)) Hne)
      as (q & -> & Hq0 & Hq1); [apply len_nonneg|apply len_filter_le|].
    eexists. split; [reflexivity|]. unfold bounded_total. rewrite len_succ. split; lra.
  - unfold mbind, Py.Result_bind. apply bool_decide_eq_false in Hten.
    rewrite (div_pos _ _ (len_pos _ Hten)). simpl.
    apply ratio_bounds; [apply len_pos; exact Hten|exact Hr0|exact Hr1].
Qed.

End Resonance.

(** C4. For every pattern and the empty beat sequence, each of the
    thematic, symbolic and tension sub-scores is 0.0, returned by the
    guard on the empty node list and not by an exception handler (no
    division is attempted), and the pattern resonance is 0.0. *)
Theorem empty_sequence_resonance_is_zero (pattern : ArchetypalPattern.t) :
  NarrativeExcavator._calculate_thematic_resonance_body
    (ArchetypalPattern.core_themes pattern) [] = Py.Return 0 ∧
  NarrativeExcavator._calculate_symbolic_resonance_body
    (ArchetypalPattern.symbolic_elements pattern) [] = Py.Return 0 ∧
  NarrativeExcavator._calculate_tension_resonance_body
    (ArchetypalPattern.narrative_tensions pattern) [] = Py.Return 0 ∧
  NarrativeExcavator._calculate_thematic_resonance
    (ArchetypalPattern.core_themes pattern) [] = 0 ∧
  NarrativeExcavator._calculate_symbolic_resonance
    (ArchetypalPattern.symbolic_elements pattern) [] = 0 ∧
  NarrativeExcavator._calculate_tension_resonance
    (ArchetypalPattern.narrative_tensions pattern) [] = 0 ∧
  NarrativeExcavator._measure_pattern_resonance pattern [] == 0.
Proof.
  repeat split; reflexivity.
Qed.

(** C5. When the theme strengths of every beat and the symbol weights
    of the pattern lie in [0, 1], the thematic, symbolic and tension
    sub-scores and the weighted pattern resonance lie in [0, 1]. *)
Theorem resonance_scores_in_unit_interval (pattern : ArchetypalPattern.t)
    (nodes : list TimelineNode.t) :
  theme_strengths_in_range nodes →
  symbol_weights_in_range pattern →
  unit_interval (NarrativeExcavator._calculate_thematic_resonance
                   (ArchetypalPattern.core_themes pattern) nodes) ∧
  unit_interval (NarrativeExcavator._calculate_symbolic_resonance
                   (ArchetypalPattern.symbolic_elements pattern) nodes) ∧
  unit_interval (NarrativeExcavator._calculate_tension_resonance
                   (ArchetypalPattern.narrative_tensions pattern) nodes) ∧
  unit_interval (NarrativeExcavator._measure_pattern_resonance pattern nodes).
Proof.
  intros Hnodes Hweights.
  pose proof (thematic_resonance_in_range (ArchetypalPattern.core_themes pattern)
                nodes Hnodes) as [Ht0 Ht1].
  pose proof (symbolic_resonance_in_range (ArchetypalPattern.symbolic_elements pattern)
                nodes Hweights) as [Hs0 Hs1].
  pose proof (tension_resonance_in_range (ArchetypalPattern.narrative_tensions pattern)
                nodes) as [Hn0 Hn1].
  unfold NarrativeExcavator._measure_pattern_resonance, unit_interval in *.
  repeat split; try assumption; cbv zeta; lra.
Qed.

(** A concrete [gmap] has all its values in the unit interval. *)
Ltac values_in_range :=
  apply map_Forall_to_list; vm_compute;
  repeat constructor; discriminate.

Lemma resonance_scores_in_unit_interval_witness :
  theme_strengths_in_range [descent_node] ∧
  symbol_weights_in_range NarrativeExcavator.hero_journey ∧
  unit_interval (NarrativeExcavator._measure_pattern_resonance
                   NarrativeExcavator.hero_journey [descent_node]).
Proof.
  assert (H1 : theme_strengths_in_range [descent_node]).
  { constructor; [values_in_range|constructor]. }
  assert (H2 : symbol_weights_in_range NarrativeExcavator.hero_journey).
  { unfold symbol_weights_in_range. values_in_range. }
  split; [exact H1|]. split; [exact H2|].
  apply (resonance_scores_in_unit_interval NarrativeExcavator.hero_journey
           [descent_node] H1 H2).
Defined.

(** ** Symbol depth *)

Section SymbolDepth.
Import NarrativeExcavator.

Lemma foldl_nonneg {A} (f : Q → A → Q) (xs : list A) (acc : Q) :
  0 <= acc →
  (∀ a x, x ∈ xs → 0 <= a → 0 <= f a x) →
  0 <= foldl f acc xs.
Proof.
  revert acc. induction xs as [|x xs IH]; intros acc Hacc Hf; simpl.
  - exact Hacc.
  - apply IH.
    + apply Hf; [left|exact Hacc].
    + intros a y Hy. apply Hf. right. exact Hy.
Qed.

Lemma symbol_depth_terms_nonneg (symbol : string) (node : TimelineNode.t) :
  map_Forall (λ _ strength, unit_interval strength) (TimelineNode.thematic_elements node) →
  impact_levels_in_range node →
  0 <= symbol_depth_terms symbol node.
Proof.
  intros Hthemes Himpact. unfold symbol_depth_terms. cbv zeta.
  match goal with
  | |- 0 <= ?a + ?b => enough (0 <= a ∧ 0 <= b) by lra
  end.
  split.
  - apply foldl_nonneg.
    + apply foldl_nonneg.
      * destruct (Py.contains _ _); lra.
      * intros a action _ Ha. destruct (mentions symbol action); lra.
    + intros a [theme strength] Hin Ha.
      apply elem_of_map_to_list in Hin. destruct (Hthemes theme strength Hin) as [H0 _].
      destruct (Py.contains _ _); lra.
  - apply foldl_nonneg; [lra|].
    intros a action Hin Ha.
    unfold impact_levels_in_range in Himpact. rewrite Forall_forall in Himpact.
    destruct (Himpact action Hin) as [H0 _].
    destruct (mentions symbol action); lra.
Qed.

End SymbolDepth.

(** C7. For every symbol and every beat whose theme strengths and
    action impact levels lie in [0, 1], the symbol depth of the
    occurrence lies in [0, 1], whatever the sum of the contributing
    terms. *)
Theorem symbol_depth_in_unit_interval (symbol : string) (node : TimelineNode.t) :
  map_Forall (λ _ strength, unit_interval strength) (TimelineNode.thematic_elements node) →
  impact_levels_in_range node →
  unit_interval (NarrativeExcavator._calculate_symbol_depth symbol node).
Proof.
  intros Hthemes Himpact. unfold NarrativeExcavator._calculate_symbol_depth. split.
  - apply min_ge; [|lra]. apply symbol_depth_terms_nonneg; assumption.
  - apply min_le_r.
Qed.

(** At [descent_node] the contributing terms sum to 1.65. *)
Lemma symbol_depth_in_unit_interval_witness :
  map_Forall (λ _ strength, unit_interval strength)
             (TimelineNode.thematic_elements descent_node) ∧
  impact_levels_in_range descent_node ∧
  1 < NarrativeExcavator.symbol_depth_terms "descent" descent_node ∧
  unit_interval (NarrativeExcavator._calculate_symbol_depth "descent" descent_node).
Proof.
  assert (H1 : map_Forall (λ _ strength, unit_interval strength)
                          (TimelineNode.thematic_elements descent_node)).
  { values_in_range. }
  assert (H2 : impact_levels_in_range descent_node).
  { unfold impact_levels_in_range. vm_compute. repeat constructor; discriminate. }
  split; [exact H1|]. split; [exact H2|]. split; [reflexivity|].
  apply (symbol_depth_in_unit_interval "descent" descent_node H1 H2).
Defined.

(** ** The timeline validator *)

(** Unfolds the monadic plumbing of a method body applied to a world. *)
Ltac run_method :=
  unfold mbind, TimelineConsistencyValidator.M_bind, mret,
    TimelineConsistencyValidator.M_ret, TimelineConsistencyValidator.state_is_None,
    TimelineConsistencyValidator.state_attr, TimelineConsistencyValidator.lift,
    TimelineConsistencyValidator.get_self, TimelineConsistencyValidator.put_self;
  cbn.

Section Validator.
Import TimelineConsistencyValidator.

Lemma excavate_patterns_empty (ex : NarrativeExcavator.t) :
  NarrativeExcavator.excavate_patterns ex [] = ∅.
Proof.
  unfold NarrativeExcavator.excavate_patterns.
  induction (Py.items (NarrativeExcavator.archetypal_patterns ex)) as [|[id p] l IH].
  - reflexivity.
  - cbn. exact IH.
Qed.

Lemma items_empty {V} (d : gmap string V) : Py.items d = [] → d = ∅.
Proof. apply map_to_list_empty_iff. Qed.

Lemma analyze_variant_empty_raises (b : NarrativeOntologyBuilder.t) (vid cid : string) :
  NarrativeOntologyBuilder.analyze_variant b [] vid cid
  = (Py.Raise (Py.TypeError
       "CanonicalMapping.__init__() got an unexpected keyword argument 'base_text_id'"), b).
Proof. reflexivity. Qed.

(** What the lazy analysis of the corpus leaves behind. *)
Lemma analyze_corpus_if_needed_spec (w : World) :
  ∃ r w', analyze_corpus_if_needed w = (r, w') ∧
    current_state w' = current_state w ∧
    canonical_nodes (self w') = canonical_nodes (self w) ∧
    excavator (self w') = excavator (self w) ∧
    thematic_weights (self w') = thematic_weights (self w) ∧
    active_patterns (self w') = active_patterns (self w) ∧
    (Py.items (active_patterns (self w)) ≠ [] → w' = w ∧ r = Py.Return ()).
Proof.
  destruct w as [me st]. unfold analyze_corpus_if_needed.
  unfold excavate_patterns, analyze_narrative_depth, analyze_variant,
    set_active_patterns, set_narrative_depth, set_excavator, set_ontology_builder.
  run_method.
  destruct (bool_decide (Py.items (active_patterns me) = [])) eqn:E.
  - apply bool_decide_eq_true in E. pose proof (items_empty _ E) as E'.
    rewrite excavate_patterns_empty. cbn.
    destruct (current_variant_id me) as [vid|]; cbn.
    + destruct (bool_decide (vid = "")); cbn.
      * eexists _, _. split; [reflexivity|]. cbn. repeat split; try done.
      * eexists _, _. split; [reflexivity|]. cbn. repeat split; try done.
    + eexists _, _. split; [reflexivity|]. cbn. repeat split; try done.
  - apply bool_decide_eq_false in E. eexists _, _. split; [reflexivity|].
    cbn. repeat split; done.
Qed.

Lemma validate_connected (me : t) (state : StoryState.t) (next_node : TimelineNode.t)
    (first_action : CharacterAction.t) (others : list CharacterAction.t) :
  StoryState.available_actions state = first_action :: others →
  TimelineNode.id next_node ∈ CharacterAction.consequences first_action →
  ∃ r w',
    analyze_corpus_if_needed (mkWorld me (Some state)) = (r, w') ∧
    validate_story_progression next_node (mkWorld me (Some state))
    = (match r with
       | Py.Return _ => verdict (self w') state next_node
       | Py.Raise e => (false, 1, "Validation error: " ++ Py.str e)
       end, w').
Proof.
  intros Hactions Hid.
  destruct (analyze_corpus_if_needed_spec (mkWorld me (Some state)))
    as (r & w' & Hrun & Hstate & _).
  exists r, w'. split; [exact Hrun|].
  destruct state. cbn in Hactions. subst.
  unfold validate_story_progression, try_except. run_method.
  unfold Py.mem. rewrite bool_decide_eq_true_2 by exact Hid. cbn.
  rewrite Hrun. destruct r as [[]|e]; [|reflexivity].
  unfold verdict. cbn in Hstate.
  destruct (Py.Qltb (_validate_pattern_consistency (self w') next_node) 0.4);
    [reflexivity|].
  repeat (rewrite Hstate; cbn).
  match goal with |- context [if ?c then _ else _] => destruct c end; cbn; reflexivity.
Qed.

Lemma validate_disconnected (me : t) (state : StoryState.t) (next_node : TimelineNode.t)
    (first_action : CharacterAction.t) (others : list CharacterAction.t) :
  StoryState.available_actions state = first_action :: others →
  TimelineNode.id next_node ∉ CharacterAction.consequences first_action →
  outcome me (Some state) next_node
    = (false, 1, "Invalid story progression - nodes not connected")
  ∧ validator_after me (Some state) next_node = me.
Proof.
  intros Hactions Hid. destruct state. cbn in Hactions. subst.
  unfold outcome, validator_after, validate_story_progression, try_except.
  run_method. unfold Py.mem. rewrite bool_decide_eq_false_2 by exact Hid. cbn.
  split; reflexivity.
Qed.

Lemma story_state_frame (me : t) (state : option StoryState.t) (next_node : TimelineNode.t) :
  state_after me state next_node = state.
Proof.
  unfold state_after. destruct state as [st|]; [|reflexivity].
  destruct (StoryState.available_actions st) as [|first_action others] eqn:Hactions.
  - destruct st. cbn in Hactions. subst. reflexivity.
  - destruct (decide (TimelineNode.id next_node ∈ CharacterAction.consequences first_action))
      as [Hid|Hid].
    + destruct (validate_connected me st next_node _ _ Hactions Hid)
        as (r & w' & Hrun & ->).
      destruct (analyze_corpus_if_needed_spec (mkWorld me (Some st)))
        as (r0 & w0 & Hrun0 & Hstate & _).
      rewrite Hrun in Hrun0. injection Hrun0 as <- <-. exact Hstate.
    + destruct st. cbn in Hactions. subst.
      unfold validate_story_progression, try_except. run_method.
      unfold Py.mem. rewrite bool_decide_eq_false_2 by exact Hid. reflexivity.
Qed.

(** C1. From an initialized state whose list of available actions is
    not empty, a next beat whose id is not among the consequences of
    the current (first) available action is rejected: the call returns
    [(False, 1.0, "Invalid story progression - nodes not connected")]
    and leaves the validator as it was. *)
Theorem disconnected_beat_is_rejected (me : t) (state : StoryState.t)
    (next_node : TimelineNode.t) (first_action : CharacterAction.t)
    (others : list CharacterAction.t) :
  StoryState.available_actions state = first_action :: others →
  TimelineNode.id next_node ∉ CharacterAction.consequences first_action →
  outcome me (Some state) next_node
    = (false, 1, "Invalid story progression - nodes not connected")
  ∧ validator_after me (Some state) next_node = me.
Proof.
  intros Hactions Hid. exact (validate_disconnected me state next_node _ _ Hactions Hid).
Qed.

(** The current action lists only "2" as a consequence and the next
    beat is "3". *)
Lemma disconnected_beat_is_rejected_witness :
  StoryState.available_actions signing_state = [signing_action] ∧
  (TimelineNode.id chase_node ∉ CharacterAction.consequences signing_action) ∧
  outcome init (Some signing_state) chase_node
    = (false, 1, "Invalid story progression - nodes not connected").
Proof.
  assert (H : TimelineNode.id chase_node ∉ CharacterAction.consequences signing_action).
  { apply not_elem_of_cons. split; [discriminate|apply not_elem_of_nil]. }
  split; [reflexivity|]. split; [exact H|].
  apply (disconnected_beat_is_rejected init signing_state chase_node
           signing_action [] eq_refl H).
Defined.

(** C8. The two definitions of [validate_story_progression] in the
    class return the same tuple and leave the same validator and story
    state, for every validator, story state and next beat. *)
Theorem duplicated_definitions_agree (next_node : TimelineNode.t) (w : World) :
  validate_story_progression_shadowed next_node w
  = validate_story_progression next_node w.
Proof.
  unfold validate_story_progression_shadowed, validate_story_progression.
  reflexivity.
Qed.

(** C9. A call leaves the story state it was given as it was, field
    for field, whether the transition is accepted or rejected. *)
Theorem story_state_is_not_modified (me : t) (state : option StoryState.t)
    (next_node : TimelineNode.t) :
  state_after me state next_node = state
  ∧ ∀ st, state = Some st →
      ∃ st', state_after me state next_node = Some st' ∧
        StoryState.current_node_id st' = StoryState.current_node_id st ∧
        StoryState.canonical_drift st' = StoryState.canonical_drift st ∧
        StoryState.active_themes st' = StoryState.active_themes st ∧
        StoryState.character_states st' = StoryState.character_states st ∧
        StoryState.available_actions st' = StoryState.available_actions st.
Proof.
  split; [apply story_state_frame|].
  intros st ->. exists st. rewrite story_state_frame. repeat split.
Qed.

Lemma clamp_agrees (x : Q) : Py.min (Py.max x 0) 1 == clamp01 x.
Proof.
  unfold Py.min, Py.max, clamp01.
  destruct (Py.Qltb x 0) eqn:E0.
  - apply Qltb_true in E0. destruct (Qlt_le_dec x 0); [|lra].
    destruct (Py.Qltb 1 0) eqn:E1; [apply Qltb_true in E1; lra|reflexivity].
  - apply Qltb_false in E0. destruct (Qlt_le_dec x 0); [lra|].
    destruct (Py.Qltb 1 x) eqn:E1.
    + apply Qltb_true in E1. destruct (Qlt_le_dec 1 x); [reflexivity|lra].
    + apply Qltb_false in E1. destruct (Qlt_le_dec 1 x); [lra|reflexivity].
Qed.

Lemma no_active_patterns_consistency (me : t) (next_node : TimelineNode.t) :
  Py.items (active_patterns me) = [] → _validate_pattern_consistency me next_node = 1.
Proof.
  intros H. unfold _validate_pattern_consistency, _validate_pattern_consistency_body.
  rewrite H. reflexivity.
Qed.

(** A rejected call, in the connected case. *)
Lemma accepted_outcome_inv (me : t) (state : StoryState.t) (next_node : TimelineNode.t) :
  StoryState.available_actions state ≠ [] →
  accepted (outcome me (Some state) next_node) = true →
  ∃ me',
    validator_after me (Some state) next_node = me' ∧
    canonical_nodes me' = canonical_nodes me ∧
    outcome me (Some state) next_node = verdict me' state next_node.
Proof.
  intros Hne Hacc.
  destruct (StoryState.available_actions state) as [|first_action others] eqn:Hactions;
    [congruence|].
  destruct (decide (TimelineNode.id next_node ∈ CharacterAction.consequences first_action))
    as [Hid|Hid].
  - unfold outcome, validator_after in *.
    destruct (validate_connected me state next_node _ _ Hactions Hid)
      as (r & w' & Hrun & Hval).
    destruct (analyze_corpus_if_needed_spec (mkWorld me (Some state)))
      as (r0 & w0 & Hrun0 & _ & Hnodes & _).
    rewrite Hrun in Hrun0. injection Hrun0 as <- <-.
    rewrite Hval in *. cbn in *. destruct r as [[]|e]; [|discriminate].
    exists (self w'). repeat split. exact Hnodes.
  - destruct (validate_disconnected me state next_node _ _ Hactions Hid) as [Hout _].
    rewrite Hout in Hacc. discriminate.
Qed.

(** C2 (as amended). For every accepted transition from a state whose
    list of available actions is not empty, the drift returned is
    current_drift x (0.7 if the next beat is canonical else 1.3) x 0.4
    + thematic_drift x 0.3 + (1 - pattern_consistency) x 0.3, clamped
    to [0, 1]. *)
Theorem accepted_drift_follows_formula (me : t) (state : StoryState.t) (next_node : TimelineNode.t) :
  StoryState.available_actions state ≠ [] →
  accepted (outcome me (Some state) next_node) = true →
  drift_follows_formula me state next_node.
Proof.
  intros Hne Hacc.
  destruct (accepted_outcome_inv me state next_node Hne Hacc) as (me' & Hme' & Hnodes & Hout).
  unfold drift_follows_formula. cbv zeta. rewrite Hme', Hout, <- Hnodes.
  rewrite Hout in Hacc. unfold verdict in *.
  destruct (Py.Qltb (_validate_pattern_consistency me' next_node) 0.4); [discriminate|].
  match goal with |- context [if ?c then _ else _] => destruct c end; [discriminate|].
  unfold returned_drift. cbn [fst snd]. unfold _update_canonical_drift, drift_formula.
  cbv zeta. apply clamp_agrees.
Qed.

(** With drift 0.2, the canonical beat "2", the themes of the state
    and no active pattern, the new drift is 0.2 x 0.7 x 0.4 = 0.056. *)
Lemma accepted_drift_follows_formula_witness :
  StoryState.available_actions signing_state ≠ [] ∧
  accepted (outcome reference_validator (Some signing_state) sailing_node) = true ∧
  drift_follows_formula reference_validator signing_state sailing_node ∧
  returned_drift (outcome reference_validator (Some signing_state) sailing_node) == 0.056.
Proof.
  assert (H1 : StoryState.available_actions signing_state ≠ []) by discriminate.
  assert (H2 : accepted (outcome reference_validator (Some signing_state) sailing_node) = true)
    by reflexivity.
  split; [exact H1|]. split; [exact H2|]. split; [|reflexivity].
  apply (accepted_drift_follows_formula reference_validator signing_state sailing_node H1 H2).
Defined.

(** C2 as stated fails: a transition from a state without available
    actions is accepted with the drift of the state, 0.2, where the
    formula gives 0.056. *)
Lemma accepted_without_actions_keeps_drift :
  accepted (outcome reference_validator (Some stranded_state) sailing_node) = true ∧
  ¬ drift_follows_formula reference_validator stranded_state sailing_node.
Proof.
  split; [reflexivity|]. vm_compute. discriminate.
Qed.


(** The score of one pattern never raises: both divisions are guarded. *)
Lemma consistency_score_returns (pattern : ArchetypalPattern.t) (resonance : Q)
    (next_node : TimelineNode.t) :
  consistency_score pattern resonance next_node
  = Py.Return (pattern_score next_node (pattern, resonance)).
Proof.
  unfold consistency_score, pattern_score, theme_overlap, role_overlap. cbv zeta.
  cbn [fst snd].
  destruct (bool_decide (elements (ArchetypalPattern.core_themes pattern) = [])) eqn:Ht;
    destruct (bool_decide (TimelineNode.characters_present next_node = [])) eqn:Hr;
    try apply bool_decide_eq_false in Ht; try apply bool_decide_eq_false in Hr;
    unfold mbind, Py.Result_bind;
    rewrite ?(div_pos _ _ (len_pos _ Ht)), ?(div_pos _ _ (len_pos _ Hr)); reflexivity.
Qed.

Lemma consistency_loop (me : t) (next_node : TimelineNode.t)
    (entries : list (string * Q)) (scores : list Q) :
  Py.for_each entries
    (λ consistency_scores '(pattern_id, resonance),
       match lookup_pattern me pattern_id with
       | Some pattern =>
           score ← consistency_score pattern resonance next_node;
           Py.Return (consistency_scores ++ [score])%list
       | None => Py.Return consistency_scores
       end)
    scores
  = Py.Return
      (scores ++ map (pattern_score next_node)
                     (omap (λ '(pattern_id, resonance),
                              (λ pattern, (pattern, resonance)) <$> lookup_pattern me pattern_id)
                           entries))%list.
Proof.
  revert scores. induction entries as [|[pattern_id resonance] entries IH]; intros scores.
  - cbn. rewrite app_nil_r. reflexivity.
  - cbn. destruct (lookup_pattern me pattern_id) as [pattern|]; cbn.
    + rewrite consistency_score_returns. cbn. rewrite IH, <- app_assoc. reflexivity.
    + apply IH.
Qed.

Lemma pattern_consistency_is_formula (me : t) (next_node : TimelineNode.t) :
  _validate_pattern_consistency me next_node = pattern_consistency_formula me next_node.
Proof.
  unfold _validate_pattern_consistency, _validate_pattern_consistency_body,
    pattern_consistency_formula, known_active_patterns.
  case_bool_decide as Hitems.
  - rewrite Hitems. reflexivity.
  - rewrite consistency_loop. cbn.
    destruct (omap _ (Py.items (active_patterns me))) as [|entry known]; [reflexivity|].
    cbn [map bool_decide]. 
    rewrite bool_decide_eq_false_2 by discriminate.
    rewrite div_pos by (apply len_pos; discriminate).
    cbn [Py.try_except]. unfold Py.len. rewrite !length_cons, length_map. reflexivity.
Qed.

(** With a pattern consistency below the threshold the analysis of the
    corpus is skipped and the verdict is the rejection of step 5. *)
Lemma inconsistent_connected (me : t) (state : StoryState.t) (next_node : TimelineNode.t)
    (first_action : CharacterAction.t) (others : list CharacterAction.t) :
  StoryState.available_actions state = first_action :: others →
  TimelineNode.id next_node ∈ CharacterAction.consequences first_action →
  _validate_pattern_consistency me next_node < 0.4 →
  outcome me (Some state) next_node
  = (false, 1, "Progression breaks archetypal pattern consistency").
Proof.
  intros Hactions Hid Hpc. unfold outcome.
  destruct (validate_connected me state next_node _ _ Hactions Hid)
    as (r & w' & Hrun & ->).
  destruct (analyze_corpus_if_needed_spec (mkWorld me (Some state)))
    as (r0 & w0 & Hrun0 & _ & _ & _ & _ & _ & Hskip).
  rewrite Hrun in Hrun0. injection Hrun0 as <- <-.
  destruct Hskip as [-> ->].
  { intros Hnone. rewrite (no_active_patterns_consistency me next_node Hnone) in Hpc.
    revert Hpc. apply Qle_not_lt. discriminate. }
  cbn. unfold verdict. apply Qltb_true in Hpc. rewrite Hpc. reflexivity.
Qed.

(** C3 (as amended). Pattern consistency is the mean, over the active
    patterns known to the library, of (fraction of core themes present
    in the beat x 0.6 + fraction of the beat's characters with a role
    in the pattern x 0.4) x resonance, and 1.0 without such a pattern;
    when it is below 0.4 and the state is not one with an empty list of
    available actions, the transition is rejected with drift 1.0,
    whatever the themes of the state. *)
Theorem pattern_consistency_threshold (me : t) (state : option StoryState.t) (next_node : TimelineNode.t) :
  _validate_pattern_consistency me next_node = pattern_consistency_formula me next_node ∧
  ((∀ st, state = Some st → StoryState.available_actions st ≠ []) →
   _validate_pattern_consistency me next_node < 0.4 →
   accepted (outcome me state next_node) = false ∧
   returned_drift (outcome me state next_node) = 1).
Proof.
  split; [apply pattern_consistency_is_formula|].
  intros Hactions Hpc. destruct state as [st|]; [|split; reflexivity].
  specialize (Hactions st eq_refl).
  destruct (StoryState.available_actions st) as [|first_action others] eqn:Hav;
    [congruence|].
  destruct (decide (TimelineNode.id next_node ∈ CharacterAction.consequences first_action))
    as [Hid|Hid].
  - rewrite (inconsistent_connected me st next_node _ _ Hav Hid Hpc). split; reflexivity.
  - destruct (validate_disconnected me st next_node _ _ Hav Hid) as [-> _].
    split; reflexivity.
Qed.

(** The beat "2" shares no theme and no character role with the
    hero's journey: its consistency is 0.0 and it is rejected. *)
Lemma pattern_consistency_threshold_witness :
  (∀ st, Some signing_state = Some st → StoryState.available_actions st ≠ []) ∧
  _validate_pattern_consistency heroic_validator sailing_node == 0 ∧
  _validate_pattern_consistency heroic_validator sailing_node < 0.4 ∧
  accepted (outcome heroic_validator (Some signing_state) sailing_node) = false.
Proof.
  assert (H1 : ∀ st, Some signing_state = Some st → StoryState.available_actions st ≠ []).
  { intros st [= <-]. discriminate. }
  assert (H2 : _validate_pattern_consistency heroic_validator sailing_node < 0.4)
    by reflexivity.
  split; [exact H1|]. split; [reflexivity|]. split; [exact H2|].
  apply (proj2 (pattern_consistency_threshold heroic_validator (Some signing_state) sailing_node) H1 H2).
Defined.

(** C3 as stated fails: with a pattern consistency of 0.0, a transition
    from a state without available actions is accepted. *)
Lemma inconsistent_beat_accepted_without_actions :
  _validate_pattern_consistency heroic_validator sailing_node < 0.4 ∧
  accepted (outcome heroic_validator (Some stranded_state) sailing_node) = true.
Proof. split; reflexivity. Qed.

(** C10. A rejection for an absent state, for a beat that is not
    connected, for a pattern consistency below 0.4 or for a caught
    exception returns the drift 1.0 exactly, whatever the drift of the
    state; the only other rejection, for excessive divergence, returns
    the newly computed drift. *)
Theorem rejections_return_full_drift (me : t) (state : option StoryState.t) (next_node : TimelineNode.t) :
  accepted (outcome me state next_node) = false →
  (returned_drift (outcome me state next_node) = 1 ∧
   (state = None ∧
      reason (outcome me state next_node) = "Invalid state: Story state not initialized"
    ∨ reason (outcome me state next_node)
        = "Invalid story progression - nodes not connected"
    ∨ reason (outcome me state next_node)
        = "Progression breaks archetypal pattern consistency"
    ∨ ∃ e, reason (outcome me state next_node) = "Validation error: " ++ Py.str e))
  ∨ (reason (outcome me state next_node) = "Story diverged too far from canonical ending" ∧
     ∃ st, state = Some st ∧
       let me' := validator_after me state next_node in
       returned_drift (outcome me state next_node)
       = _update_canonical_drift (StoryState.canonical_drift st)
           (bool_decide (TimelineNode.id next_node ∈ canonical_nodes me'))
           (_calculate_thematic_drift me' (StoryState.active_themes st)
              (TimelineNode.thematic_elements next_node) (active_patterns me'))
           (_validate_pattern_consistency me' next_node)).
Proof.
  intros Hrej. destruct state as [st|]; [|left; split; [reflexivity|left; split; reflexivity]].
  destruct (StoryState.available_actions st) as [|first_action others] eqn:Hav.
  - destruct st. cbn in Hav. subst. discriminate Hrej.
  - destruct (decide (TimelineNode.id next_node ∈ CharacterAction.consequences first_action))
      as [Hid|Hid].
    + unfold outcome, validator_after in *.
      destruct (validate_connected me st next_node _ _ Hav Hid) as (r & w' & Hrun & Hval).
      rewrite Hval in *. cbn [fst snd] in *. destruct r as [[]|e].
      * unfold verdict in *.
        destruct (Py.Qltb (_validate_pattern_consistency (self w') next_node) 0.4).
        { left. split; [reflexivity|]. right. right. left. reflexivity. }
        match type of Hrej with context [if ?c then _ else _] => destruct c end;
          [|discriminate].
        right. split; [reflexivity|]. exists st. split; reflexivity.
      * left. split; [reflexivity|]. right. right. right. exists e. reflexivity.
    + destruct (validate_disconnected me st next_node _ _ Hav Hid) as [-> _].
      left. split; [reflexivity|]. right. left. reflexivity.
Qed.

(** With a variant id set, the analysis of the variant raises and the
    exception is caught. *)
Lemma rejections_return_full_drift_witness :
  accepted (outcome (set_variant_id reference_validator "ishmael_survives")
              (Some signing_state) sailing_node) = false ∧
  returned_drift (outcome (set_variant_id reference_validator "ishmael_survives")
                    (Some signing_state) sailing_node) = 1.
Proof.
  assert (H : accepted (outcome (set_variant_id reference_validator "ishmael_survives")
                          (Some signing_state) sailing_node) = false) by reflexivity.
  split; [exact H|].
  destruct (rejections_return_full_drift (set_variant_id reference_validator "ishmael_survives")
              (Some signing_state) sailing_node H) as [[Hd _]|[Hr _]].
  - exact Hd.
  - discriminate Hr.
Defined.
End Validator.

(** ** The ontology builder *)

Section Ontology.
Import NarrativeOntologyBuilder.

Lemma extract_elements_raises (node : TimelineNode.t) (nodes : list TimelineNode.t) :
  _extract_narrative_elements (node :: nodes)
  = Py.Raise (Py.AttributeError "'TimelineNode' object has no attribute 'location'").
Proof. reflexivity. Qed.

(** No call of [analyze_variant] returns a mapping. *)
Lemma analyze_variant_never_completes (self : t) (variant_nodes : list TimelineNode.t)
    (variant_id canonical_id : string) :
  ∃ e, analyze_variant self variant_nodes variant_id canonical_id = (Py.Raise e, self).
Proof.
  destruct variant_nodes as [|node nodes].
  - eexists. reflexivity.
  - eexists. unfold analyze_variant. rewrite extract_elements_raises. reflexivity.
Qed.

(** C6 (the code at a failing input). The empty beat sequence can be
    registered as the reference "moby_dick_original"; analysing the
    same sequence as a variant of it does not complete: building the
    mapping raises a [TypeError]. For the one-beat sequence
    [descent_node], registration and analysis both raise an
    [AttributeError]. No canonical fidelity is computed. *)
Theorem analyze_variant_of_reference_raises :
  let registered := register_canonical_text init "moby_dick_original" [] in
  fst registered = Py.Return () ∧
  fst (analyze_variant (snd registered) [] "replay" "moby_dick_original")
  = Py.Raise (Py.TypeError
      "CanonicalMapping.__init__() got an unexpected keyword argument 'base_text_id'") ∧
  fst (register_canonical_text init "moby_dick_original" [descent_node])
  = Py.Raise (Py.AttributeError "'TimelineNode' object has no attribute 'location'") ∧
  fst (analyze_variant init [descent_node] "replay" "moby_dick_original")
  = Py.Raise (Py.AttributeError "'TimelineNode' object has no attribute 'location'").
Proof.
  cbv zeta. repeat split; reflexivity.
Qed.

End Ontology.

(** ** Further properties of the timeline validator *)

Section ValidatorFurther.
Import TimelineConsistencyValidator.


Lemma clamp_monotone (x y : Q) : x <= y → Py.min (Py.max x 0) 1 <= Py.min (Py.max y 0) 1.
Proof.
  intros Hxy. rewrite !clamp_agrees. unfold clamp01.
  destruct (Qlt_le_dec x 0), (Qlt_le_dec y 0); try lra;
    destruct (Qlt_le_dec 1 x), (Qlt_le_dec 1 y); lra.
Qed.

Lemma analyze_corpus_first_time (me : t) (state : option StoryState.t) :
  Py.items (active_patterns me) = [] →
  analyze_corpus_if_needed (mkWorld me state)
  = (if variant_is_set me then Py.Raise mapping_error else Py.Return (),
     mkWorld (forget_analysis me) state).
Proof.
  intros Hnone. unfold analyze_corpus_if_needed, variant_is_set.
  unfold excavate_patterns, analyze_narrative_depth, analyze_variant,
    set_active_patterns, set_narrative_depth, set_excavator, set_ontology_builder.
  run_method. rewrite Hnone. cbn.
  rewrite excavate_patterns_empty. cbn.
  destruct me as [cn ca ex ob tw ap nd [vid|]]; cbn.
  - destruct (bool_decide (vid = "")); cbn.
    + reflexivity.
    + destruct ob; reflexivity.
  - reflexivity.
Qed.

Lemma analyze_corpus_skipped (me : t) (state : option StoryState.t) :
  Py.items (active_patterns me) ≠ [] →
  analyze_corpus_if_needed (mkWorld me state) = (Py.Return (), mkWorld me state).
Proof.
  intros Hsome.
  destruct (analyze_corpus_if_needed_spec (mkWorld me state))
    as (r & w' & Hrun & _ & _ & _ & _ & _ & Hskip).
  destruct (Hskip Hsome) as [-> ->]. exact Hrun.
Qed.

Lemma validate_without_actions (me : t) (state : StoryState.t) (next_node : TimelineNode.t) :
  StoryState.available_actions state = [] →
  validate_story_progression next_node (mkWorld me (Some state))
  = ((true, StoryState.canonical_drift state, "No actions available"),
     mkWorld me (Some state)).
Proof.
  intros Hnone. destruct state. cbn in Hnone. subst. reflexivity.
Qed.




(** X2. For a non-negative current drift, [_update_canonical_drift]
    gives a beat of the reference narrative a new drift no larger than
    it gives the same beat when it is not, other arguments equal. *)
Theorem canonical_beat_drifts_no_more (current_drift thematic_drift pattern_consistency : Q) :
  0 <= current_drift →
  _update_canonical_drift current_drift true thematic_drift pattern_consistency
  <= _update_canonical_drift current_drift false thematic_drift pattern_consistency.
Proof.
  intros Hd. unfold _update_canonical_drift. cbv zeta. apply clamp_monotone. lra.
Qed.

Lemma canonical_beat_drifts_no_more_witness :
  0 <= 0.5 ∧
  _update_canonical_drift 0.5 true 0.2 0.9 <= _update_canonical_drift 0.5 false 0.2 0.9.
Proof.
  assert (H : 0 <= 0.5) by discriminate.
  split; [exact H|]. apply (canonical_beat_drifts_no_more 0.5 0.2 0.9 H).
Defined.

(** The accumulated drift is zero when both dictionaries are the same. *)
Lemma drift_loop_same_themes (weight_of : string → Q) (themes : gmap string Q)
    (all_themes : list string) (total_drift total_weight : Q) :
  total_drift == 0 →
  (foldl (λ '(total_drift, total_weight) theme,
            let weight := weight_of theme in
            let current_value := Py.get themes theme 0 in
            let next_value := Py.get themes theme 0 in
            let drift := Qabs (current_value - next_value) * weight in
            (total_drift + drift, total_weight + weight))
         (total_drift, total_weight) all_themes).1 == 0.
Proof.
  revert total_drift total_weight.
  induction all_themes as [|theme rest IH]; intros td tw Htd; cbn.
  - exact Htd.
  - apply IH. rewrite Htd.
    assert (H : Qabs (Py.get themes theme 0 - Py.get themes theme 0) == 0).
    { apply Qabs_case; intros _; lra. }
    rewrite H. ring.
Qed.

Lemma same_themes_no_drift (me : t) (themes active_patterns : gmap string Q) :
  _calculate_thematic_drift me themes themes active_patterns == 0.
Proof.
  unfold _calculate_thematic_drift. cbv zeta.
  match goal with
  | |- (let '(_, _) := foldl ?f ?acc ?xs in _) == 0 =>
      pose proof (drift_loop_same_themes
                    (λ theme,
                       foldl (λ weight '(pattern_id, resonance),
                                match lookup_pattern me pattern_id with
                                | Some pattern =>
                                    if bool_decide (theme ∈ ArchetypalPattern.core_themes pattern)
                                    then weight * (1 + resonance) else weight
                                | None => weight
                                end)
                             (Py.get (thematic_weights me) theme 0.5)
                             (Py.items active_patterns))
                    themes xs 0 0 (Qeq_refl 0)) as Hloop;
      cbv zeta in Hloop; destruct (foldl f acc xs) as [total_drift total_weight]
  end.
  cbn [fst] in Hloop.
  destruct (Py.Qltb 0 total_weight) eqn:E; [|reflexivity].
  rewrite Hloop. apply Qltb_true in E. field. lra.
Qed.






Lemma overlap_in_range {A} (f : A → bool) (xs : list A) :
  unit_interval (if bool_decide (xs = []) then 1
                 else Py.len (List.filter f xs) / Py.len xs).
Proof.
  case_bool_decide as Hxs; [split; lra|].
  apply ratio_bounds; [apply len_pos; exact Hxs|apply len_nonneg|apply len_List_filter_le].
Qed.

Lemma pattern_score_in_range (node : TimelineNode.t) (pattern : ArchetypalPattern.t)
    (resonance : Q) :
  unit_interval resonance → unit_interval (pattern_score node (pattern, resonance)).
Proof.
  intros [Hr0 Hr1]. unfold pattern_score, theme_overlap, role_overlap. cbn [fst snd].
  cbv zeta.
  destruct (overlap_in_range (Py.has_key (TimelineNode.thematic_elements node))
              (elements (ArchetypalPattern.core_themes pattern))) as [Ht0 Ht1].
  destruct (overlap_in_range (Py.has_key (ArchetypalPattern.character_roles pattern))
              (TimelineNode.characters_present node)) as [Hc0 Hc1].
  split; nra.
Qed.

(** X5. When the resonance of every active pattern lies in [0, 1], the
    pattern consistency of any next beat lies in [0, 1]. *)
Theorem pattern_consistency_in_unit_interval (me : t) (next_node : TimelineNode.t) :
  map_Forall (λ _ resonance, unit_interval resonance) (active_patterns me) →
  unit_interval (_validate_pattern_consistency me next_node).
Proof.
  intros Hactive. rewrite pattern_consistency_is_formula.
  unfold pattern_consistency_formula.
  assert (Hknown : Forall (λ entry, unit_interval entry.2) (known_active_patterns me)).
  { unfold known_active_patterns. apply Forall_forall. intros [pattern resonance] Hin.
    apply list_elem_of_omap in Hin. destruct Hin as ([pattern_id r] & Hitem & Hsome).
    apply elem_of_map_to_list in Hitem.
    destruct (lookup_pattern me pattern_id) as [p|]; [|discriminate].
    cbn in Hsome. injection Hsome as <- <-. exact (Hactive _ _ Hitem). }
  destruct (known_active_patterns me) as [|entry known] eqn:E; [split; lra|].
  assert (Hscores : Forall (λ x, 0 <= x ∧ x <= 1) (map (pattern_score next_node) (entry :: known))).
  { apply Forall_map. eapply Forall_impl; [exact Hknown|].
    intros [pattern resonance] Hres. apply pattern_score_in_range. exact Hres. }
  destruct (sum_bounds _ Hscores) as [H0 H1].
  apply ratio_bounds; [apply len_pos; discriminate|exact H0|].
  eapply Qle_trans; [exact H1|]. apply len_le. rewrite length_map. reflexivity.
Qed.

Lemma pattern_consistency_in_unit_interval_witness :
  map_Forall (λ _ resonance, unit_interval resonance) (active_patterns heroic_validator) ∧
  unit_interval (_validate_pattern_consistency heroic_validator descent_node).
Proof.
  assert (H : map_Forall (λ _ resonance, unit_interval resonance)
                         (active_patterns heroic_validator))
    by values_in_range.
  split; [exact H|].
  apply (pattern_consistency_in_unit_interval heroic_validator descent_node H).
Defined.

Lemma validate_first_time (me : t) (state : StoryState.t) (next_node : TimelineNode.t)
    (first_action : CharacterAction.t) (others : list CharacterAction.t) :
  active_patterns me = ∅ →
  StoryState.available_actions state = first_action :: others →
  TimelineNode.id next_node ∈ CharacterAction.consequences first_action →
  validate_story_progression next_node (mkWorld me (Some state))
  = (if variant_is_set me
     then (false, 1, "Validation error: " ++ Py.str mapping_error)
     else (true,
           _update_canonical_drift (StoryState.canonical_drift state)
             (bool_decide (TimelineNode.id next_node ∈ canonical_nodes me))
             (_calculate_thematic_drift (forget_analysis me)
                (StoryState.active_themes state)
                (TimelineNode.thematic_elements next_node) ∅)
             1,
           "Valid progression"),
     mkWorld (forget_analysis me) (Some state)).
Proof.
  intros Hnone Hav Hid.
  assert (Hitems : Py.items (active_patterns me) = []).
  { rewrite Hnone. apply map_to_list_empty. }
  destruct (validate_connected me state next_node _ _ Hav Hid) as (r & w' & Hrun & ->).
  rewrite (analyze_corpus_first_time me (Some state) Hitems) in Hrun.
  injection Hrun as <- <-.
  destruct (variant_is_set me); [reflexivity|].
  unfold verdict. cbn [self].
  rewrite (no_active_patterns_consistency (forget_analysis me) next_node)
    by apply map_to_list_empty.
  change (Py.Qltb 1 0.4) with false. cbv iota.
  unfold _is_near_ending. rewrite andb_false_r. reflexivity.
Qed.

(** X6. A validator without active patterns and without a variant id
    accepts every beat that is a consequence of the first available
    action, with the reason "Valid progression", and still has no
    active pattern afterwards. *)
Theorem connected_beat_accepted_without_patterns (me : t) (state : StoryState.t)
    (next_node : TimelineNode.t) (first_action : CharacterAction.t)
    (others : list CharacterAction.t) :
  active_patterns me = ∅ →
  variant_is_set me = false →
  StoryState.available_actions state = first_action :: others →
  TimelineNode.id next_node ∈ CharacterAction.consequences first_action →
  accepted (outcome me (Some state) next_node) = true ∧
  reason (outcome me (Some state) next_node) = "Valid progression" ∧
  active_patterns (validator_after me (Some state) next_node) = ∅.
Proof.
  intros Hnone Hvariant Hav Hid. unfold outcome, validator_after.
  rewrite (validate_first_time me state next_node _ _ Hnone Hav Hid), Hvariant.
  repeat split.
Qed.

Lemma connected_beat_accepted_without_patterns_witness :
  active_patterns reference_validator = ∅ ∧
  variant_is_set reference_validator = false ∧
  StoryState.available_actions signing_state = [signing_action] ∧
  (TimelineNode.id sailing_node ∈ CharacterAction.consequences signing_action) ∧
  accepted (outcome reference_validator (Some signing_state) sailing_node) = true.
Proof.
  assert (H : TimelineNode.id sailing_node ∈ CharacterAction.consequences signing_action)
    by constructor.
  split; [reflexivity|]. split; [reflexivity|]. split; [reflexivity|]. split; [exact H|].
  apply (connected_beat_accepted_without_patterns reference_validator signing_state
           sailing_node signing_action [] eq_refl eq_refl eq_refl H).
Defined.

(** X7. Once a variant id is set on a validator without active
    patterns, every beat that is a consequence of the first available
    action is rejected with drift 1.0 and the message of the
    [TypeError] raised while the mapping of the variant is built. *)
Theorem variant_id_rejects_connected_beats (me : t) (state : StoryState.t)
    (next_node : TimelineNode.t) (first_action : CharacterAction.t)
    (others : list CharacterAction.t) :
  active_patterns me = ∅ →
  variant_is_set me = true →
  StoryState.available_actions state = first_action :: others →
  TimelineNode.id next_node ∈ CharacterAction.consequences first_action →
  outcome me (Some state) next_node
  = (false, 1,
     "Validation error: CanonicalMapping.__init__() got an unexpected keyword argument 'base_text_id'").
Proof.
  intros Hnone Hvariant Hav Hid. unfold outcome.
  rewrite (validate_first_time me state next_node _ _ Hnone Hav Hid), Hvariant.
  reflexivity.
Qed.

Lemma variant_id_rejects_connected_beats_witness :
  active_patterns variant_validator = ∅ ∧
  variant_is_set variant_validator = true ∧
  StoryState.available_actions signing_state = [signing_action] ∧
  (TimelineNode.id sailing_node ∈ CharacterAction.consequences signing_action) ∧
  accepted (outcome variant_validator (Some signing_state) sailing_node) = false.
Proof.
  assert (H : TimelineNode.id sailing_node ∈ CharacterAction.consequences signing_action)
    by constructor.
  split; [reflexivity|]. split; [reflexivity|]. split; [reflexivity|]. split; [exact H|].
  rewrite (variant_id_rejects_connected_beats variant_validator signing_state
             sailing_node signing_action [] eq_refl eq_refl eq_refl H).
  reflexivity.
Defined.

(** X8. For a validator without active patterns and without a variant
    id, a connected beat that carries exactly the themes of the state
    multiplies a drift of [0, 1] by 0.28 when the beat belongs to the
    reference narrative and by 0.52 when it does not. *)
Theorem unchanged_themes_contract_drift (me : t) (state : StoryState.t)
    (next_node : TimelineNode.t) (first_action : CharacterAction.t)
    (others : list CharacterAction.t) :
  active_patterns me = ∅ →
  variant_is_set me = false →
  StoryState.available_actions state = first_action :: others →
  TimelineNode.id next_node ∈ CharacterAction.consequences first_action →
  TimelineNode.thematic_elements next_node = StoryState.active_themes state →
  unit_interval (StoryState.canonical_drift state) →
  returned_drift (outcome me (Some state) next_node)
  == (if bool_decide (TimelineNode.id next_node ∈ canonical_nodes me) then 0.28 else 0.52)
     * StoryState.canonical_drift state.
Proof.
  intros Hnone Hvariant Hav Hid Hthemes [Hd0 Hd1]. unfold outcome.
  rewrite (validate_first_time me state next_node _ _ Hnone Hav Hid), Hvariant.
  unfold returned_drift. cbn [fst snd]. rewrite Hthemes.
  pose proof (same_themes_no_drift (forget_analysis me) (StoryState.active_themes state) ∅)
    as Hzero.
  unfold _update_canonical_drift. cbv zeta. rewrite clamp_agrees. unfold clamp01.
  destruct (bool_decide (TimelineNode.id next_node ∈ canonical_nodes me));
    repeat match goal with |- context [Qlt_le_dec ?a ?b] => destruct (Qlt_le_dec a b) end;
    lra.
Qed.

Lemma unchanged_themes_contract_drift_witness :
  active_patterns reference_validator = ∅ ∧
  variant_is_set reference_validator = false ∧
  StoryState.available_actions signing_state = [signing_action] ∧
  (TimelineNode.id sailing_node ∈ CharacterAction.consequences signing_action) ∧
  TimelineNode.thematic_elements sailing_node = StoryState.active_themes signing_state ∧
  unit_interval (StoryState.canonical_drift signing_state) ∧
  returned_drift (outcome reference_validator (Some signing_state) sailing_node)
  == 0.28 * 0.2.
Proof.
  assert (H : TimelineNode.id sailing_node ∈ CharacterAction.consequences signing_action)
    by constructor.
  assert (Hd : unit_interval (StoryState.canonical_drift signing_state))
    by (split; discriminate).
  split; [reflexivity|]. split; [reflexivity|]. split; [reflexivity|]. split; [exact H|].
  split; [reflexivity|]. split; [exact Hd|].
  apply (unchanged_themes_contract_drift reference_validator signing_state
           sailing_node signing_action [] eq_refl eq_refl eq_refl H eq_refl Hd).
Defined.

(** X9. A call changes nothing of the validator, or it only resets
    [narrative_depth] (and the already empty [active_patterns]) to the
    empty dictionary: the active patterns are never populated. *)
Theorem validator_changes_only_narrative_depth (me : t) (state : option StoryState.t)
    (next_node : TimelineNode.t) :
  validator_after me state next_node = me
  ∨ (active_patterns me = ∅ ∧ validator_after me state next_node = forget_analysis me).
Proof.
  destruct state as [st|]; [|left; reflexivity].
  destruct (StoryState.available_actions st) as [|first_action others] eqn:Hav.
  - left. unfold validator_after.
    rewrite (validate_without_actions me st next_node Hav). reflexivity.
  - destruct (decide (TimelineNode.id next_node ∈ CharacterAction.consequences first_action))
      as [Hid|Hid].
    + destruct (decide (Py.items (active_patterns me) = [])) as [Hnone|Hsome].
      * right. apply map_to_list_empty_iff in Hnone. split; [exact Hnone|].
        unfold validator_after.
        rewrite (validate_first_time me st next_node _ _ Hnone Hav Hid). reflexivity.
      * left. unfold validator_after.
        destruct (validate_connected me st next_node _ _ Hav Hid) as (r & w' & Hrun & ->).
        rewrite (analyze_corpus_skipped me (Some st) Hsome) in Hrun.
        injection Hrun as <- <-. reflexivity.
    + left. destruct (validate_disconnected me st next_node _ _ Hav Hid) as [_ ->].
      reflexivity.
Qed.

(** X10. From a state without available actions every beat is
    accepted with the drift of the state and the reason "No actions
    available", and the validator is left as it was (no analysis runs,
    also when a variant id is set). *)
Theorem no_actions_accepts_unchanged (me : t) (state : StoryState.t)
    (next_node : TimelineNode.t) :
  StoryState.available_actions state = [] →
  outcome me (Some state) next_node
    = (true, StoryState.canonical_drift state, "No actions available")
  ∧ validator_after me (Some state) next_node = me.
Proof.
  intros Hnone. unfold outcome, validator_after.
  rewrite (validate_without_actions me state next_node Hnone). split; reflexivity.
Qed.

Lemma no_actions_accepts_unchanged_witness :
  StoryState.available_actions stranded_state = [] ∧
  outcome variant_validator (Some stranded_state) chase_node
    = (true, 0.2, "No actions available").
Proof.
  split; [reflexivity|].
  apply (no_actions_accepts_unchanged variant_validator stranded_state chase_node eq_refl).
Defined.

Lemma all_actions_valid (state : StoryState.t) (actions : list CharacterAction.t) :
  List.filter (λ action, _is_action_valid action state) actions = actions.
Proof.
  induction actions as [|action actions IH]; [reflexivity|]. cbn.
  rewrite IH. unfold _is_action_valid. destruct (_ && _)%bool; reflexivity.
Qed.

Lemma available_actions_are_registered (me : t) (character_id : string)
    (state : StoryState.t) :
  get_available_actions me character_id (Some state)
  = Py.get (character_actions me) character_id [].
Proof.
  unfold get_available_actions, Py.has_key, Py.get.
  destruct (character_actions me !! character_id); [apply all_actions_valid|reflexivity].
Qed.

(** X11. After [register_canonical_action] for a character,
    [get_available_actions] returns for that character the actions it
    returned before followed by the new one, and for every other
    character what it returned before. *)
Theorem registered_action_is_available (me : t) (character_id other : string)
    (action : CharacterAction.t) (state : StoryState.t) :
  get_available_actions (register_canonical_action me character_id action)
    other (Some state)
  = if bool_decide (other = character_id)
    then (get_available_actions me character_id (Some state) ++ [action])%list
    else get_available_actions me other (Some state).
Proof.
  rewrite !available_actions_are_registered. unfold register_canonical_action.
  cbn [character_actions]. unfold Py.get at 1.
  case_bool_decide as Heq.
  - subst. rewrite lookup_insert_eq. reflexivity.
  - rewrite lookup_insert_ne by congruence. reflexivity.
Qed.
End ValidatorFurther.

(** ** Further properties of the narrative excavator *)

Section Dictionaries.
Context {V R : Type}.

(** Selecting items of a dictionary, keeping their keys, and building
    a dictionary from them. *)
Lemma lookup_selected_items (f : string * V → option (string * R)) (d : gmap string V)
    (k : string) :
  (∀ k v k' r, f (k, v) = Some (k', r) → k' = k) →
  (list_to_map (omap f (map_to_list d)) : gmap string R) !! k
  = v ← d !! k; snd <$> f (k, v).
Proof.
  intros Hf.
  assert (Hkey : ∀ l, (omap f l).*1 `sublist_of` l.*1).
  { induction l as [|[k' v] l IH]; [constructor|]. cbn.
    destruct (f (k', v)) as [[k'' r]|] eqn:E; cbn; [|constructor; exact IH].
    rewrite (Hf _ _ _ _ E). constructor. exact IH. }
  assert (Hnodup : NoDup (omap f (map_to_list d)).*1).
  { apply (sublist_NoDup _ (map_to_list d).*1); [apply NoDup_fst_map_to_list|apply Hkey]. }
  apply option_eq. intros r.
  rewrite <- (elem_of_list_to_map _ _ _ Hnodup), list_elem_of_omap. split.
  - intros ([k' v] & Hin & Hsome). apply elem_of_map_to_list in Hin.
    pose proof (Hf _ _ _ _ Hsome) as ->. rewrite Hin. cbn. rewrite Hsome. reflexivity.
  - intros Hsel. destruct (d !! k) as [v|] eqn:E; [|discriminate].
    cbn in Hsel. exists (k, v). split; [apply elem_of_map_to_list; exact E|].
    destruct (f (k, v)) as [[k' r']|] eqn:E'; [|discriminate].
    cbn in Hsel. injection Hsel as ->. rewrite (Hf _ _ _ _ E'). reflexivity.
Qed.
End Dictionaries.

Section ExcavatorFurther.
Import NarrativeExcavator.

Lemma excavate_patterns_lookup (self : t) (nodes : list TimelineNode.t) (pattern_id : string) :
  excavate_patterns self nodes !! pattern_id
  = pattern ← archetypal_patterns self !! pattern_id;
    if Py.Qltb 0.4 (_measure_pattern_resonance pattern nodes)
    then Some (_measure_pattern_resonance pattern nodes) else None.
Proof.
  unfold excavate_patterns, Py.items. rewrite lookup_selected_items.
  - destruct (archetypal_patterns self !! pattern_id) as [pattern|]; [|reflexivity].
    cbn. destruct (Py.Qltb 0.4 _); reflexivity.
  - intros k v k' r. cbn. destruct (Py.Qltb 0.4 _); [|discriminate].
    intros [= -> _]. reflexivity.
Qed.


(** X12. [excavate_patterns] maps a pattern id to a resonance exactly
    when the id names a pattern of the library whose measured
    resonance exceeds 0.4, and the resonance stored is the measured
    one. *)
Theorem excavate_patterns_keeps_resonant_patterns (self : t) (nodes : list TimelineNode.t)
    (pattern_id : string) (resonance : Q) :
  excavate_patterns self nodes !! pattern_id = Some resonance
  ↔ ∃ pattern, archetypal_patterns self !! pattern_id = Some pattern ∧
      resonance = _measure_pattern_resonance pattern nodes ∧ 0.4 < resonance.
Proof.
  rewrite excavate_patterns_lookup. split.
  - destruct (archetypal_patterns self !! pattern_id) as [pattern|]; [|discriminate].
    cbn. destruct (Py.Qltb 0.4 _) eqn:E; [|discriminate].
    intros [= <-]. exists pattern. repeat split. apply Qltb_true. exact E.
  - intros (pattern & -> & -> & Hlt). cbn. apply Qltb_true in Hlt. rewrite Hlt.
    reflexivity.
Qed.




Lemma extracted_symbols_known (self : t) (node : TimelineNode.t) (symbol : string) :
  symbol ∈ _extract_symbols self node → known_symbol self symbol = true.
Proof.
  unfold _extract_symbols. cbv zeta. rewrite elem_of_list_to_set, !elem_of_app.
  intros [Hin|[Hin|Hin]].
  - apply list_elem_of_In, List.filter_In in Hin. apply Hin.
  - apply list_elem_of_In, in_concat in Hin. destruct Hin as (words & Hwords & Hin).
    apply in_map_iff in Hwords. destruct Hwords as (action & <- & _).
    apply List.filter_In in Hin. apply Hin.
  - apply list_elem_of_In, List.filter_In in Hin. apply Hin.
Qed.

Lemma symbol_depth_range (symbol : string) (node : TimelineNode.t) :
  map_Forall (λ _ strength, unit_interval strength) (TimelineNode.thematic_elements node) →
  impact_levels_in_range node →
  unit_interval (_calculate_symbol_depth symbol node).
Proof.
  intros Hthemes Himpact. unfold _calculate_symbol_depth. split.
  - apply min_ge; [|lra]. apply symbol_depth_terms_nonneg; assumption.
  - apply min_le_r.
Qed.

(** What holds of every entry of the depth dictionary while it is built. *)
Lemma record_depth_invariant (P : string → Prop) (I : Q → Prop)
    (depths : gmap string (list Q)) (symbol : string) (depth : Q) :
  map_Forall (λ symbol depths, P symbol ∧ Forall I depths) depths →
  P symbol → I depth →
  map_Forall (λ symbol depths, P symbol ∧ Forall I depths)
             (record_depth depths symbol depth).
Proof.
  intros Hall Hsymbol Hdepth. unfold record_depth. apply map_Forall_insert_2; [|exact Hall].
  split; [exact Hsymbol|]. apply Forall_app. split; [|repeat constructor; exact Hdepth].
  unfold Py.get. destruct (depths !! symbol) as [ds|] eqn:E; [|constructor].
  exact (proj2 (Hall symbol ds E)).
Qed.

Lemma depth_loop_invariant (self : t) (I : Q → Prop) (nodes : list TimelineNode.t)
    (depths : gmap string (list Q)) :
  Forall (λ node, ∀ symbol, I (_calculate_symbol_depth symbol node)) nodes →
  map_Forall (λ symbol depths, known_symbol self symbol = true ∧ Forall I depths) depths →
  map_Forall (λ symbol depths, known_symbol self symbol = true ∧ Forall I depths)
    (foldl (λ depths node,
              foldl (λ depths symbol,
                       record_depth depths symbol (_calculate_symbol_depth symbol node))
                    depths (elements (_extract_symbols self node)))
           depths nodes).
Proof.
  intros Hnodes. revert depths.
  induction Hnodes as [|node nodes Hnode _ IH]; intros depths Hdepths; cbn [foldl].
  - exact Hdepths.
  - apply IH.
    assert (Hsymbols : Forall (λ symbol, known_symbol self symbol = true)
                              (elements (_extract_symbols self node))).
    { apply Forall_forall. intros symbol Hin. apply elem_of_elements in Hin.
      exact (extracted_symbols_known self node symbol Hin). }
    revert depths Hdepths.
    induction Hsymbols as [|symbol symbols Hknown _ IHs]; intros depths Hdepths; cbn [foldl].
    + exact Hdepths.
    + apply IHs. apply record_depth_invariant; [exact Hdepths|exact Hknown|apply Hnode].
Qed.

(** X14. Every symbol under which [analyze_narrative_depth] reports
    depths is a key of the symbolic elements of some pattern of the
    library. *)
Theorem depth_symbols_are_known (self : t) (nodes : list TimelineNode.t) :
  map_Forall (λ symbol _, known_symbol self symbol = true)
             (analyze_narrative_depth self nodes).1.
Proof.
  unfold analyze_narrative_depth. case_bool_decide; cbn [fst].
  - apply map_Forall_empty.
  - pose proof (depth_loop_invariant self (λ _, True) nodes ∅) as Hloop.
    eapply map_Forall_impl; [apply Hloop|].
    + apply Forall_forall. intros node _ symbol. exact I.
    + apply map_Forall_empty.
    + intros symbol depths [Hknown _]. exact Hknown.
Qed.

(** X15. When the theme strengths and the impact levels of the beats
    lie in [0, 1], every depth reported by [analyze_narrative_depth]
    lies in [0, 1]; for a non-empty beat list the report is also what
    the excavator keeps in [symbolic_depth]. *)
Theorem narrative_depths_in_unit_interval (self : t) (nodes : list TimelineNode.t) :
  theme_strengths_in_range nodes →
  Forall impact_levels_in_range nodes →
  map_Forall (λ _ depths, Forall unit_interval depths)
             (analyze_narrative_depth self nodes).1
  ∧ (nodes ≠ [] →
     symbolic_depth (analyze_narrative_depth self nodes).2
     = (analyze_narrative_depth self nodes).1).
Proof.
  intros Hthemes Himpact. unfold analyze_narrative_depth.
  case_bool_decide as Hnodes; cbn [fst snd].
  - split; [apply map_Forall_empty|congruence].
  - split; [|reflexivity].
    pose proof (depth_loop_invariant self unit_interval nodes ∅) as Hloop.
    eapply map_Forall_impl; [apply Hloop|].
    + unfold theme_strengths_in_range in Hthemes.
      rewrite Forall_forall in Hthemes, Himpact. apply Forall_forall.
      intros node Hin symbol. apply symbol_depth_range; auto.
    + apply map_Forall_empty.
    + intros symbol depths [_ Hrange]. exact Hrange.
Qed.
Lemma narrative_depths_in_unit_interval_witness :
  theme_strengths_in_range [descent_node] ∧
  Forall impact_levels_in_range [descent_node] ∧
  map_Forall (λ _ depths, Forall unit_interval depths)
             (analyze_narrative_depth init [descent_node]).1.
Proof.
  assert (H1 : theme_strengths_in_range [descent_node]).
  { constructor; [values_in_range|constructor]. }
  assert (H2 : Forall impact_levels_in_range [descent_node]).
  { constructor; [|constructor]. unfold impact_levels_in_range. vm_compute.
    repeat constructor; discriminate. }
  split; [exact H1|]. split; [exact H2|].
  apply (narrative_depths_in_unit_interval init [descent_node] H1 H2).
Defined.

(** X16. On an empty beat list, whatever the pattern library,
    [excavate_patterns] finds no pattern and [analyze_narrative_depth]
    reports nothing and leaves the excavator as it was. *)
Theorem empty_corpus_excavates_nothing (self : t) :
  excavate_patterns self [] = ∅ ∧
  analyze_narrative_depth self [] = (∅, self).
Proof. split; [apply excavate_patterns_empty|reflexivity]. Qed.

End ExcavatorFurther.


(** ** Further properties of the ontology builder *)

Section OntologyFurther.
Import NarrativeOntologyBuilder.

Lemma fraction_or_zero_range (xs : gset string) (test : string → bool) :
  ∃ q, fraction_or_zero (count_in xs test) xs = Py.Return q ∧ unit_interval q.
Proof.
  unfold fraction_or_zero, count_in. case_bool_decide as Hxs.
  - exists 0. split; [reflexivity|split; lra].
  - rewrite (div_pos _ _ (len_pos _ Hxs)). eexists. split; [reflexivity|].
    apply ratio_bounds; [apply len_pos; exact Hxs|apply len_nonneg|apply len_List_filter_le].
Qed.

(** X17. The resonance of a Frye pattern in a beat sequence lies in
    [0, 1], for every pattern and every sequence. *)
Theorem frye_resonance_in_unit_interval (pattern : FryeanPattern.t)
    (nodes : list TimelineNode.t) :
  unit_interval (_calculate_pattern_resonance pattern nodes).
Proof.
  unfold _calculate_pattern_resonance, _calculate_pattern_resonance_body.
  loop_invariant (λ (scores : list Q) (_ : nat), Forall unit_interval scores) scores Hscores.
  - constructor.
  - intros scores node k _ Hscores.
    destruct (fraction_or_zero_range (FryeanPattern.character_types pattern)
                (type_in_actions node)) as (c & -> & Hc0 & Hc1).
    destruct (fraction_or_zero_range (FryeanPattern.symbols pattern)
                (symbol_in_description node)) as (s & -> & Hs0 & Hs1).
    destruct (fraction_or_zero_range (FryeanPattern.thematic_elements pattern)
                (theme_in_node node)) as (t & -> & Ht0 & Ht1).
    eexists. split; [reflexivity|]. apply Forall_app. split; [exact Hscores|].
    repeat constructor; cbv zeta; lra.
  - unfold mbind, Py.Result_bind. case_bool_decide as Hnone; [split; cbn; lra|].
    rewrite (div_pos _ _ (len_pos _ Hnone)). cbn [Py.try_except].
    destruct (sum_bounds scores Hscores) as [H0 H1].
    apply ratio_bounds; [apply len_pos; exact Hnone|exact H0|exact H1].
Qed.

Lemma insert_by_resonance_perm (x : FryeanPattern.t) (xs : list FryeanPattern.t) :
  insert_by_resonance x xs ≡ₚ x :: xs.
Proof.
  induction xs as [|y ys IH]; cbn; [reflexivity|].
  destruct (Py.Qltb _ _); [|reflexivity].
  rewrite IH. apply Permutation_swap.
Qed.

Lemma sort_by_resonance_perm (xs : list FryeanPattern.t) : sort_by_resonance xs ≡ₚ xs.
Proof.
  induction xs as [|x xs IH]; cbn; [reflexivity|].
  unfold sort_by_resonance in *. rewrite insert_by_resonance_perm, IH. reflexivity.
Qed.

Lemma insert_by_resonance_sorted (x : FryeanPattern.t) (xs : list FryeanPattern.t) :
  Sorted by_decreasing_resonance xs →
  Sorted by_decreasing_resonance (insert_by_resonance x xs).
Proof.
  induction 1 as [|y ys Hsorted IH Hhd]; cbn.
  - repeat constructor.
  - destruct (Py.Qltb (FryeanPattern.resonance x) (FryeanPattern.resonance y)) eqn:E.
    + apply Qltb_true in E. constructor; [exact IH|].
      destruct ys as [|z zs]; cbn.
      * constructor. unfold by_decreasing_resonance. lra.
      * destruct (Py.Qltb (FryeanPattern.resonance x) (FryeanPattern.resonance z)).
        -- constructor. inversion Hhd. assumption.
        -- constructor. unfold by_decreasing_resonance. lra.
    + apply Qltb_false in E. constructor; [constructor; assumption|].
      constructor. exact E.
Qed.

Lemma sort_by_resonance_sorted (xs : list FryeanPattern.t) :
  Sorted by_decreasing_resonance (sort_by_resonance xs).
Proof.
  induction xs as [|x xs IH]; cbn; [constructor|].
  apply insert_by_resonance_sorted. exact IH.
Qed.

(** X18. [_analyze_frye_patterns] returns, in order of decreasing
    resonance, exactly the patterns of the catalogue whose resonance
    exceeds 0.3, each as a copy that carries its resonance. *)
Theorem frye_patterns_sorted_and_filtered (self : t) (nodes : list TimelineNode.t) :
  Sorted by_decreasing_resonance (_analyze_frye_patterns self nodes) ∧
  ∀ active, active ∈ _analyze_frye_patterns self nodes ↔
    ∃ pattern, pattern ∈ concat (map snd (frye_patterns self)) ∧
      0.3 < _calculate_pattern_resonance pattern nodes ∧
      active = FryeanPattern.with_resonance pattern
                 (_calculate_pattern_resonance pattern nodes).
Proof.
  unfold _analyze_frye_patterns. cbv zeta. split; [apply sort_by_resonance_sorted|].
  intros active. rewrite sort_by_resonance_perm, list_elem_of_omap. split.
  - intros (pattern & Hin & Hsome). exists pattern. split; [exact Hin|].
    destruct (Py.Qltb 0.3 _) eqn:E; [|discriminate].
    injection Hsome as <-. split; [apply Qltb_true; exact E|reflexivity].
  - intros (pattern & Hin & Hlt & ->). exists pattern. split; [exact Hin|].
    apply Qltb_true in Hlt. rewrite Hlt. reflexivity.
Qed.

(** A loop whose body may raise: what holds of the accumulator at entry
    and is kept by every iteration that returns holds of the result, if
    there is one. *)
Lemma for_each_preserves {A St} (P : St → Prop) (xs : list A)
    (body : St → A → Py.Result St) (acc : St) :
  P acc →
  (∀ s x s', P s → body s x = Py.Return s' → P s') →
  ∀ r, Py.for_each xs body acc = Py.Return r → P r.
Proof.
  intros Hacc Hbody. revert acc Hacc.
  induction xs as [|x xs IH]; intros acc Hacc r; cbn.
  - intros [= <-]. exact Hacc.
  - destruct (body acc x) as [s'|e] eqn:E; cbn; [|discriminate].
    apply IH. exact (Hbody _ _ _ Hacc E).
Qed.

Lemma div_nonneg (a b q : Q) : 0 <= a → 0 <= b → Py.div a b = Py.Return q → 0 <= q.
Proof.
  intros Ha Hb. unfold Py.div. destruct (Qeq_bool b 0) eqn:E; [discriminate|].
  intros [= <-]. apply Qeq_bool_neq in E.
  apply Qle_shift_div_l; [|lra]. destruct (Qlt_le_dec 0 b); [assumption|].
  exfalso. apply E. lra.
Qed.

Lemma count_in_nonneg (xs : gset string) (test : string → bool) : 0 <= count_in xs test.
Proof. apply len_nonneg. Qed.

(** X19. The Melville resonance lies in [0, 1] for every builder and
    every beat sequence (0.0 when a division by zero is caught). *)
Theorem melville_resonance_in_unit_interval (self : t) (nodes : list TimelineNode.t) :
  unit_interval (_analyze_melville_resonance self nodes).
Proof.
  unfold _analyze_melville_resonance, _analyze_melville_resonance_body.
  match goal with
  | |- context [Py.for_each nodes ?body 0] =>
      pose proof (for_each_preserves (λ total, 0 <= total) nodes body 0 (Qle_refl 0)) as Hloop;
      destruct (Py.for_each nodes body 0) as [total|e]
  end; [|split; cbn; lra].
  assert (Htotal : 0 <= total).
  { apply Hloop; [|reflexivity]. clear. intros total node total' Htotal.
    apply for_each_preserves; [exact Htotal|]. clear.
    intros total work total' Htotal.
    destruct (Py.div _ _) as [q|e] eqn:E; [|discriminate]. cbn. intros [= <-].
    apply div_nonneg in E.
    - lra.
    - pose proof (count_in_nonneg (MelvilleWork.themes work) (theme_in_node node)).
      pose proof (count_in_nonneg (MelvilleWork.symbols work) (symbol_in_description node)).
      pose proof (count_in_nonneg (MelvilleWork.character_types work) (type_in_actions node)).
      lra.
    - pose proof (len_nonneg (base.elements (MelvilleWork.themes work))).
      pose proof (len_nonneg (base.elements (MelvilleWork.symbols work))).
      pose proof (len_nonneg (base.elements (MelvilleWork.character_types work))).
      lra. }
  unfold mbind, Py.Result_bind.
  destruct (Py.div total _) as [average|e] eqn:E; [|split; cbn; lra].
  cbn [Py.try_except]. apply div_nonneg in E; [|exact Htotal|apply len_nonneg].
  split; [apply min_ge; lra|apply min_le_r].
Qed.

Lemma keys_of_pairs {B} (g : string → B) (ids : list string) :
  (map (λ k, (k, g k)) ids).*1 = ids.
Proof. induction ids as [|k ids IH]; cbn; [reflexivity|]. rewrite IH. reflexivity. Qed.

Lemma archetypal_shifts_lookup (self : t) (canonical_id : string)
    (variant_patterns : gmap string Q) (pattern_id : string) :
  _calculate_archetypal_shifts self canonical_id variant_patterns !! pattern_id
  = let reference := Py.get (canonical_patterns self) canonical_id ∅ in
    if bool_decide (pattern_id ∈ dom reference ∪ dom variant_patterns)
    then Some (Py.get variant_patterns pattern_id 0 - Py.get reference pattern_id 0)
    else None.
Proof.
  unfold _calculate_archetypal_shifts. cbv zeta.
  set (reference := Py.get (canonical_patterns self) canonical_id ∅).
  set (ids := base.elements (dom reference ∪ dom variant_patterns)).
  assert (Hnodup : NoDup (map (λ pattern_id,
                                 (pattern_id,
                                  Py.get variant_patterns pattern_id 0
                                  - Py.get reference pattern_id 0)) ids).*1).
  { rewrite keys_of_pairs. apply NoDup_elements. }
  case_bool_decide as Hin.
  - apply (elem_of_list_to_map_1 _ _ _ Hnodup). apply list_elem_of_fmap.
    exists pattern_id. split; [reflexivity|]. apply elem_of_elements. exact Hin.
  - apply not_elem_of_list_to_map_1. rewrite keys_of_pairs.
    intros Hmem. apply elem_of_elements in Hmem. exact (Hin Hmem).
Qed.

(** X20. When the pattern profile of a variant is the one registered
    for the reference text, [_calculate_archetypal_shifts] gives a
    shift of zero for each of its patterns and for no other id. *)
Theorem same_profile_has_no_shift (self : t) (canonical_id : string)
    (profile : gmap string Q) :
  canonical_patterns self !! canonical_id = Some profile →
  map_Forall (λ _ shift, shift == 0)
             (_calculate_archetypal_shifts self canonical_id profile)
  ∧ dom (_calculate_archetypal_shifts self canonical_id profile) = dom profile.
Proof.
  intros Hreference.
  assert (Hget : Py.get (canonical_patterns self) canonical_id ∅ = profile).
  { unfold Py.get. rewrite Hreference. reflexivity. }
  split.
  - intros pattern_id shift. rewrite archetypal_shifts_lookup. cbv zeta. rewrite Hget.
    case_bool_decide; [|discriminate]. intros [= <-]. ring.
  - apply set_eq. intros pattern_id. rewrite !elem_of_dom, archetypal_shifts_lookup.
    cbv zeta. rewrite Hget. case_bool_decide as Hin.
    + apply elem_of_union in Hin. destruct Hin as [Hin|Hin];
        apply elem_of_dom in Hin; split; eauto.
    + split; [intros [? [=]]|]. intros Hsome. exfalso. apply Hin.
      apply elem_of_union. left. apply elem_of_dom. exact Hsome.
Qed.

Lemma same_profile_has_no_shift_witness :
  canonical_patterns profiled_builder !! "moby_dick_original" = Some {[ "quest" := 0.7 ]} ∧
  map_Forall (λ _ shift, shift == 0)
             (_calculate_archetypal_shifts profiled_builder "moby_dick_original"
                {[ "quest" := 0.7 ]}) ∧
  _calculate_archetypal_shifts profiled_builder "moby_dick_original" {[ "quest" := 0.7 ]}
    !! "quest" = Some (0.7 - 0.7).
Proof.
  assert (H : canonical_patterns profiled_builder !! "moby_dick_original"
              = Some {[ "quest" := 0.7 ]}) by reflexivity.
  split; [exact H|]. split; [|reflexivity].
  exact (proj1 (same_profile_has_no_shift profiled_builder "moby_dick_original"
                  {[ "quest" := 0.7 ]} H)).
Defined.

Lemma denominator_pos (n : nat) : 0 < inject_Z (Z.of_nat (Nat.max n 1)).
Proof. unfold Qlt. cbn. lia. Qed.







Lemma guarded_mean_range (xs : list Q) (n : nat) :
  Forall unit_interval xs → n = length xs →
  unit_interval (Py.sum xs / inject_Z (Z.of_nat (Nat.max n 1))).
Proof.
  intros Hxs ->. destruct (sum_bounds xs Hxs) as [H0 H1].
  apply ratio_bounds; [apply denominator_pos|exact H0|].
  eapply Qle_trans; [exact H1|]. unfold Py.len. rewrite <- Zle_Qle. lia.
Qed.

Lemma max_of_range (x : Q) (xs : list Q) :
  unit_interval x → Forall unit_interval xs → unit_interval (max_of x xs).
Proof.
  intros Hx Hxs. revert x Hx. unfold max_of.
  induction Hxs as [|y ys Hy _ IH]; intros x Hx; cbn; [exact Hx|].
  apply IH. unfold Py.max. destruct (Py.Qltb x y); assumption.
Qed.

Lemma best_similarity_range (similarities : gmap string Q) :
  map_Forall (λ _ v, unit_interval v) similarities →
  unit_interval (best_similarity similarities).
Proof.
  intros Hall. unfold best_similarity.
  assert (Hvalues : Forall unit_interval (Py.values similarities)).
  { unfold Py.values. apply Forall_fmap. apply map_Forall_to_list in Hall.
    eapply Forall_impl; [exact Hall|]. intros [k v] Hv. exact Hv. }
  destruct (Py.values similarities) as [|x xs]; [split; lra|].
  inversion Hvalues; subst. apply max_of_range; assumption.
Qed.

(** X22. When every similarity lies in [0, 1], every shift in [-1, 1]
    and the Melville resonance in [0, 1], the canonical fidelity lies
    in [0, 1]. *)
Theorem canonical_fidelity_in_unit_interval (element_mappings : gmap string (gmap string Q))
    (archetypal_shifts : gmap string Q) (melville_resonance : Q) :
  map_Forall (λ _ similarities, map_Forall (λ _ v, unit_interval v) similarities)
             element_mappings →
  map_Forall (λ _ shift, -1 <= shift ∧ shift <= 1) archetypal_shifts →
  unit_interval melville_resonance →
  unit_interval (_calculate_canonical_fidelity element_mappings archetypal_shifts
                   melville_resonance).
Proof.
  intros Hmappings Hshifts [Hm0 Hm1]. unfold _calculate_canonical_fidelity. cbv zeta.
  destruct (guarded_mean_range (map best_similarity (Py.values element_mappings))
              (length (Py.items element_mappings))) as [He0 He1].
  { apply Forall_map. unfold Py.values. apply Forall_fmap.
    apply map_Forall_to_list in Hmappings.
    eapply Forall_impl; [exact Hmappings|]. intros [k sims] Hsims.
    apply best_similarity_range. exact Hsims. }
  { unfold Py.values, Py.items. rewrite length_map, length_fmap. reflexivity. }
  destruct (guarded_mean_range (map Qabs (Py.values archetypal_shifts))
              (length (Py.items archetypal_shifts))) as [Hp0 Hp1].
  { apply Forall_map. unfold Py.values. apply Forall_fmap.
    apply map_Forall_to_list in Hshifts.
    eapply Forall_impl; [exact Hshifts|]. intros [k shift] [Hs0 Hs1]. cbn in *.
    apply Qabs_case; intros Hsign; split; lra. }
  { unfold Py.values, Py.items. rewrite length_map, length_fmap. reflexivity. }
  split; lra.
Qed.

Lemma canonical_fidelity_in_unit_interval_witness :
  map_Forall (λ _ similarities, map_Forall (λ _ v, unit_interval v) similarities)
             ({[ "theme_fate" := {[ "theme_destiny" := 0.6 ]} ]}
                : gmap string (gmap string Q)) ∧
  map_Forall (λ _ shift, -1 <= shift ∧ shift <= 1)
             ({[ "quest" := -0.3 ]} : gmap string Q) ∧
  unit_interval 0.5 ∧
  unit_interval (_calculate_canonical_fidelity
                   {[ "theme_fate" := {[ "theme_destiny" := 0.6 ]} ]}
                   {[ "quest" := -0.3 ]} 0.5).
Proof.
  assert (H1 : map_Forall
                 (λ _ similarities, map_Forall (λ _ v, unit_interval v) similarities)
                 ({[ "theme_fate" := {[ "theme_destiny" := 0.6 ]} ]}
                    : gmap string (gmap string Q))).
  { apply map_Forall_singleton. values_in_range. }
  assert (H2 : map_Forall (λ _ shift, -1 <= shift ∧ shift <= 1)
                          ({[ "quest" := -0.3 ]} : gmap string Q))
    by values_in_range.
  assert (H3 : unit_interval 0.5) by (split; discriminate).
  split; [exact H1|]. split; [exact H2|]. split; [exact H3|].
  apply (canonical_fidelity_in_unit_interval _ _ _ H1 H2 H3).
Defined.

(** X23. [register_canonical_text] always stores the pattern profile
    of the text and never changes the registered elements; it returns
    normally exactly for an empty beat list, and otherwise raises the
    [AttributeError] of the missing [location] attribute, after the
    profile has been stored. *)
Theorem registration_stores_profile_only (self : t) (text_id : string)
    (nodes : list TimelineNode.t) :
  let result := register_canonical_text self text_id nodes in
  canonical_patterns result.2 !! text_id
    = Some (NarrativeExcavator.excavate_patterns (excavator self) nodes) ∧
  elements result.2 = elements self ∧
  (result.1 = Py.Return () ↔ nodes = []) ∧
  (nodes ≠ [] →
   result.1 = Py.Raise (Py.AttributeError "'TimelineNode' object has no attribute 'location'")).
Proof.
  cbv zeta. unfold register_canonical_text. destruct nodes as [|node nodes].
  - cbn. rewrite lookup_insert_eq, fmap_empty, (left_id_L ∅ (∪)). repeat split; congruence.
  - rewrite extract_elements_raises. cbn. rewrite lookup_insert_eq.
    repeat split; congruence.
Qed.
End OntologyFurther.

(** ** Serialization of the story state *)

Section Serialization.
Import StoryStateIO.

Lemma action_round_trip (action : CharacterAction.t) :
  action_from_dict (action_to_dict action) = Loaded action.
Proof. destruct action. reflexivity. Qed.

Lemma actions_round_trip (actions : list CharacterAction.t) :
  actions_from_dicts (map action_to_dict actions) = Loaded actions.
Proof.
  induction actions as [|action actions IH]; [reflexivity|].
  cbn [map actions_from_dicts]. rewrite action_round_trip, IH. reflexivity.
Qed.

(** X24. [StoryState.from_dict(state.to_dict())] is [state], all fields
    included, whatever the clock. *)
Theorem story_state_round_trip (now : string) (state : StoryState.t) :
  from_dict now (to_dict state) = Loaded state.
Proof.
  unfold from_dict, to_dict. cbn. rewrite actions_round_trip. destruct state. reflexivity.
Qed.

Lemma action_loads_iff (action : ActionDict.t) :
  (∃ loaded_action, action_from_dict action = Loaded loaded_action)
  ↔ has_required_keys action.
Proof.
  unfold has_required_keys. split.
  - intros [loaded_action Hload]. unfold action_from_dict in Hload.
    destruct action as [[c|] [a|] [i|] [t|] [s|] k]; cbn in Hload; try discriminate.
    cbn. repeat split; eauto.
  - intros ([c Hc] & [a Ha] & [i Hi] & [t Ht] & [s Hs]).
    destruct action. cbn in *. subst. eexists. reflexivity.
Qed.

Lemma actions_load_iff (actions : list ActionDict.t) :
  (∃ loaded_actions, actions_from_dicts actions = Loaded loaded_actions)
  ↔ Forall has_required_keys actions.
Proof.
  induction actions as [|action rest IH]; cbn.
  - split; [constructor|eauto].
  - rewrite Forall_cons, <- IH, <- action_loads_iff.
    destruct (action_from_dict action) as [first|key]; cbn.
    + destruct (actions_from_dicts rest) as [others|key]; cbn.
      * split; eauto.
      * split; [intros [? [=]]|intros [_ [? [=]]]].
    + split; [intros [? [=]]|intros [[? [=]] _]].
Qed.

(** X25. [StoryState.from_dict] returns a state exactly when every
    listed action dictionary has the keys "character_id",
    "action_text", "impact_level", "thematic_elements" and
    "consequences"; every other key may be absent (a [KeyError] is
    raised otherwise). *)
Theorem from_dict_succeeds_iff_required_keys (now : string) (data : StateDict.t) :
  (∃ state, from_dict now data = Loaded state)
  ↔ Forall has_required_keys (listed_actions data).
Proof.
  rewrite <- actions_load_iff. unfold from_dict, listed_actions. cbv zeta.
  destruct (actions_from_dicts _) as [actions|key]; split; eauto; intros [? [=]].
Qed.
End Serialization.
